(** * Store backend (backend/server.py): a shallow embedding and its properties

    The handlers of [backend/server.py] are embedded as pure functions over an
    explicit database value [Db]: every handler takes the database before the
    request and returns its response together with the database after it.

    The document store is modelled by lists of documents in insertion order
    ([find_one] returns the first match, [update_one] and [delete_one] touch
    the first match, [to_list n] keeps the first [n] documents).  Values the
    handlers draw from their environment ([uuid.uuid4()], [datetime.utcnow()],
    the salt of the password hasher) are explicit arguments.  The password
    hasher and the JWT encoder are libraries outside the repository and are
    taken as parameters of the authentication handlers. *)

From Stdlib Require Import List String Ascii ZArith Bool Lia PrimFloat.
From Stdlib Require Import DecimalString.
Import ListNotations.

Set Warnings "-register-all,-inexact-float".

Local Open Scope string_scope.
Local Open Scope Z_scope.
Local Open Scope list_scope.

(** ** Data model *)

(** A naive UTC [datetime], as microseconds since the epoch. *)
Definition datetime := Z.

(** A JSON value: the content of the [dict] fields of an order. *)
Inductive json : Type :=
| JNull
| JBool (b : bool)
| JInt (n : Z)
| JFloat (x : float)
| JStr (s : string)
| JArr (l : list json)
| JObj (l : list (string * json)).

Definition dict := list (string * json).

(** [class Product(BaseModel)] *)
Module Product.
Record t := mk {
  id : string;
  name : string;
  description : string;
  price : float;
  image_url : string;
  category : string;
  stock : Z;
  created_at : datetime
}.
End Product.

(** A document of the [products] collection.  [update_product] writes with
    [$set] whatever the request carried, and every field of [ProductUpdate]
    is [Optional], so the six updatable fields of a stored document hold a
    value or [null] ([None]). *)
Module ProductDoc.
Record t := mk {
  id : string;
  name : option string;
  description : option string;
  price : option float;
  image_url : option string;
  category : option string;
  stock : option Z;
  created_at : datetime
}.
End ProductDoc.

(** [class ProductCreate(BaseModel)] *)
Module ProductCreate.
Record t := mk {
  name : string;
  description : string;
  price : float;
  image_url : string;
  category : string;
  stock : Z
}.
End ProductCreate.

(** [class ProductUpdate(BaseModel)].  A field is unset ([None]: the key was
    not in the request body), or set to [null] ([Some None]) or to a value
    ([Some (Some v)]); pydantic records the last two alike in its set of
    fields that were set. *)
Module ProductUpdate.
Record t := mk {
  name : option (option string);
  description : option (option string);
  price : option (option float);
  image_url : option (option string);
  category : option (option string);
  stock : option (option Z)
}.
End ProductUpdate.

(** [class User(BaseModel)] *)
Module User.
Record t := mk {
  id : string;
  email : string;
  full_name : string;
  hashed_password : string;
  is_active : bool;
  created_at : datetime
}.
End User.

(** [class UserCreate(BaseModel)] *)
Module UserCreate.
Record t := mk {
  email : string;
  full_name : string;
  password : string
}.
End UserCreate.

(** [class UserLogin(BaseModel)] *)
Module UserLogin.
Record t := mk {
  email : string;
  password : string
}.
End UserLogin.

(** [class Token(BaseModel)] *)
Module Token.
Record t := mk {
  access_token : string;
  token_type : string
}.
End Token.

(** [class CartItem(BaseModel)] *)
Module CartItem.
Record t := mk {
  id : string;
  user_id : string;
  product_id : string;
  quantity : Z;
  created_at : datetime
}.
End CartItem.

(** [class CartItemCreate(BaseModel)] *)
Module CartItemCreate.
Record t := mk {
  product_id : string;
  quantity : Z
}.
End CartItemCreate.

(** [class Order(BaseModel)] *)
Module Order.
Record t := mk {
  id : string;
  user_id : string;
  items : list dict;
  total_amount : float;
  status : string;
  shipping_address : dict;
  created_at : datetime
}.
End Order.

(** [class OrderCreate(BaseModel)] *)
Module OrderCreate.
Record t := mk {
  items : list dict;
  total_amount : float;
  shipping_address : dict
}.
End OrderCreate.

(** An entry of the list [get_cart] returns; [product] is the [dict()] of a
    validated [Product]. *)
Module CartEntry.
Record t := mk {
  id : string;
  quantity : Z;
  product : Product.t
}.
End CartEntry.

(** The four collections of [db]. *)
Record Db := mkDb {
  users : list User.t;
  products : list ProductDoc.t;
  cart_items : list CartItem.t;
  orders : list Order.t
}.

(** What a handler answers: its return value, an [HTTPException] it raised,
    or another exception that escaped it (a pydantic [ValidationError] when a
    stored document does not fit its model): a 500 for the caller. *)
Inductive response (A : Type) : Type :=
| Ok (a : A)
| HTTPException (status_code : Z) (detail : string)
| InternalServerError.

Arguments Ok {A} a.
Arguments HTTPException {A} status_code detail.
Arguments InternalServerError {A}.

(** ** The document store *)

Module Collection.
Section Ops.
Context {A : Type}.

Definition find_one (q : A -> bool) (c : list A) : option A :=
  List.find q c.

Definition find (q : A -> bool) (c : list A) : list A :=
  List.filter q c.

Definition to_list (n : nat) (cursor : list A) : list A :=
  List.firstn n cursor.

Definition insert_one (d : A) (c : list A) : list A :=
  c ++ [d].

Definition insert_many (ds : list A) (c : list A) : list A :=
  c ++ ds.

(** [update_one q {"$set": ...}]: the first match is rewritten by [f];
  the first component is [matched_count]. *)
Fixpoint update_one (q : A -> bool) (f : A -> A) (c : list A)
  : nat * list A :=
  match c with
  | [] => (0%nat, [])
  | d :: c' =>
      if q d then (1%nat, f d :: c')
      else let (n, r) := update_one q f c' in (n, d :: r)
  end.

(** [delete_one q]: the first match is removed; the first component is
  [deleted_count]. *)
Fixpoint delete_one (q : A -> bool) (c : list A) : nat * list A :=
  match c with
  | [] => (0%nat, [])
  | d :: c' =>
      if q d then (1%nat, c')
      else let (n, r) := delete_one q c' in (n, d :: r)
  end.

Definition delete_many (q : A -> bool) (c : list A) : list A :=
  List.filter (fun d => negb (q d)) c.

Definition count_documents (q : A -> bool) (c : list A) : nat :=
  List.length (List.filter q c).
End Ops.
End Collection.

(** ** Models and documents *)

(** The model [Product] built from a stored document: pydantic rejects
    [null] in a field that is not [Optional]; no field of [Product] is. *)
Definition Product_parse (doc : ProductDoc.t) : option Product.t :=
  match ProductDoc.name doc, ProductDoc.description doc, ProductDoc.price doc,
        ProductDoc.image_url doc, ProductDoc.category doc, ProductDoc.stock doc
  with
  | Some n, Some d, Some p, Some i, Some c, Some s =>
      Some (Product.mk (ProductDoc.id doc) n d p i c s (ProductDoc.created_at doc))
  | _, _, _, _, _, _ => None
  end.

(** [product_obj.dict()] *)
Definition Product_dict (p : Product.t) : ProductDoc.t :=
  ProductDoc.mk (Product.id p) (Some (Product.name p))
    (Some (Product.description p)) (Some (Product.price p))
    (Some (Product.image_url p)) (Some (Product.category p))
    (Some (Product.stock p)) (Product.created_at p).

(** The list comprehension that builds a [Product] from each document found:
    the first document that does not validate raises. *)
Fixpoint Product_parse_all (docs : list ProductDoc.t) : option (list Product.t) :=
  match docs with
  | [] => Some []
  | d :: docs' =>
      match Product_parse d with
      | Some p => option_map (cons p) (Product_parse_all docs')
      | None => None
      end
  end.

(** [product_update.dict(exclude_unset=True)] is empty (falsy) exactly when
    no field was set. *)
Definition update_data_nonempty (u : ProductUpdate.t) : bool :=
  match ProductUpdate.name u, ProductUpdate.description u, ProductUpdate.price u,
        ProductUpdate.image_url u, ProductUpdate.category u, ProductUpdate.stock u
  with
  | None, None, None, None, None, None => false
  | _, _, _, _, _, _ => true
  end.

Definition set_field {A : Type} (upd : option (option A)) (old : option A)
  : option A :=
  match upd with
  | Some v => v
  | None => old
  end.

(** [{"$set": update_data}] on one document. *)
Definition apply_set (u : ProductUpdate.t) (d : ProductDoc.t) : ProductDoc.t :=
  ProductDoc.mk (ProductDoc.id d)
    (set_field (ProductUpdate.name u) (ProductDoc.name d))
    (set_field (ProductUpdate.description u) (ProductDoc.description d))
    (set_field (ProductUpdate.price u) (ProductDoc.price d))
    (set_field (ProductUpdate.image_url u) (ProductDoc.image_url d))
    (set_field (ProductUpdate.category u) (ProductDoc.category d))
    (set_field (ProductUpdate.stock u) (ProductDoc.stock d))
    (ProductDoc.created_at d).

Definition with_products (db : Db) (ps : list ProductDoc.t) : Db :=
  mkDb (users db) ps (cart_items db) (orders db).

Definition with_users (db : Db) (us : list User.t) : Db :=
  mkDb us (products db) (cart_items db) (orders db).

Definition with_cart_items (db : Db) (cs : list CartItem.t) : Db :=
  mkDb (users db) (products db) cs (orders db).

Definition with_orders (db : Db) (os : list Order.t) : Db :=
  mkDb (users db) (products db) (cart_items db) os.

(** Truth value of an [Optional[str]]: [None] and the empty string are falsy. *)
Definition truthy (s : option string) : bool :=
  match s with
  | Some s => negb (String.eqb s "")
  | None => false
  end.

(** ** The store's [$regex] with option [i]

    The store matches with a PCRE engine.  The fragment modelled here is the
    patterns made of ordinary characters and the dot, over ASCII text; a
    pattern with any other metacharacter is outside the model ([compile]
    answers [None]). *)
Module Regex.

Inductive atom : Type :=
| Lit (c : ascii)
| AnyChar.

Definition is_meta (c : ascii) : bool :=
  existsb (Ascii.eqb c) (list_ascii_of_string "\^$.[]|()?*+{}").

Fixpoint compile (pattern : string) : option (list atom) :=
  match pattern with
  | EmptyString => Some []
  | String c rest =>
      match compile rest with
      | Some r =>
          if Ascii.eqb c "." then Some (AnyChar :: r)
          else if is_meta c then None
          else Some (Lit c :: r)
      | None => None
      end
  end.

(** Case folding of option [i] on ASCII letters. *)
Definition lower (c : ascii) : ascii :=
  let n := N_of_ascii c in
  if ((65 <=? n) && (n <=? 90))%N then ascii_of_N (n + 32) else c.

Definition newline : ascii := ascii_of_N 10.

Definition atom_matches (a : atom) (c : ascii) : bool :=
  match a with
  | Lit x => Ascii.eqb (lower x) (lower c)
  | AnyChar => negb (Ascii.eqb c newline)
  end.

(** The atoms match a prefix of the subject. *)
Fixpoint match_here (r : list atom) (subject : string) : bool :=
  match r, subject with
  | [], _ => true
  | _ :: _, EmptyString => false
  | a :: r', String c subject' => atom_matches a c && match_here r' subject'
  end.

(** Unanchored search: a match starts at some position of the subject. *)
Fixpoint search (r : list atom) (subject : string) : bool :=
  match_here r subject ||
  match subject with
  | EmptyString => false
  | String _ subject' => search r subject'
  end.

End Regex.

(** ** The environment of a request

    [uuid4 k] is the result of the [k]-th call of [uuid.uuid4()] the handler
    makes, [utcnow k] the result of its [k]-th call of [datetime.utcnow()],
    and [salt] the randomness the password hasher draws. *)
Record Env := mkEnv {
  uuid4 : nat -> string;
  utcnow : nat -> datetime;
  salt : string
}.

(** [timedelta(minutes=m)], in microseconds. *)
Definition minutes (m : Z) : Z := m * 60 * 1000000.

Definition ACCESS_TOKEN_EXPIRE_MINUTES : Z := 30.

(** ** Authentication routes *)

(** The payload [create_access_token] signs. *)
Record Claims := mkClaims {
  sub : string;
  exp : datetime
}.

Section Auth.

(** [pwd_context.verify], [pwd_context.hash] (salted) and [jwt.encode] with
    the fixed key and algorithm. *)
Variable verify_password : string -> string -> bool.
Variable get_password_hash : string -> string -> string.
Variable jwt_encode : Claims -> string.

(** [create_access_token(data={"sub": subject}, expires_delta)]: a zero
    [timedelta] is falsy. *)
Definition create_access_token (now : datetime) (subject : string)
  (expires_delta : option Z) : string :=
  let expire :=
    match expires_delta with
    | Some delta => if delta =? 0 then now + minutes 15 else now + delta
    | None => now + minutes 15
    end in
  jwt_encode (mkClaims subject expire).

Definition by_email (email : string) (u : User.t) : bool :=
  String.eqb (User.email u) email.

Definition register (env : Env) (user : UserCreate.t) (db : Db)
  : response Token.t * Db :=
  match Collection.find_one (by_email (UserCreate.email user)) (users db) with
  | Some _ => (HTTPException 400 "Email already registered", db)
  | None =>
      let hashed_password :=
        get_password_hash (salt env) (UserCreate.password user) in
      let user_obj :=
        User.mk (uuid4 env 0) (UserCreate.email user)
          (UserCreate.full_name user) hashed_password true (utcnow env 0) in
      let db' := with_users db (Collection.insert_one user_obj (users db)) in
      let access_token :=
        create_access_token (utcnow env 1) (User.id user_obj)
          (Some (minutes ACCESS_TOKEN_EXPIRE_MINUTES)) in
      (Ok (Token.mk access_token "bearer"), db')
  end.

Definition login (env : Env) (user_login : UserLogin.t) (db : Db)
  : response Token.t * Db :=
  match Collection.find_one (by_email (UserLogin.email user_login)) (users db) with
  | None => (HTTPException 401 "Incorrect email or password", db)
  | Some user =>
      if negb (verify_password (UserLogin.password user_login)
                 (User.hashed_password user))
      then (HTTPException 401 "Incorrect email or password", db)
      else
        let access_token :=
          create_access_token (utcnow env 0) (User.id user)
            (Some (minutes ACCESS_TOKEN_EXPIRE_MINUTES)) in
        (Ok (Token.mk access_token "bearer"), db)
  end.

End Auth.

(** ** Product routes *)

Definition product_by_id (product_id : string) (d : ProductDoc.t) : bool :=
  String.eqb (ProductDoc.id d) product_id.

(** A [{"$regex": ..., "$options": "i"}] condition on a field; a [null]
    field matches no pattern. *)
Definition regex_field (r : list Regex.atom) (field : option string) : bool :=
  match field with
  | Some s => Regex.search r s
  | None => false
  end.

(** The documents the query built by [get_products] selects: its keys are
    conjoined; [category] is an equality, [$or] a disjunction of two regex
    conditions. *)
Definition products_query (category : option string)
  (or_regex : option (list Regex.atom)) (d : ProductDoc.t) : bool :=
  match category with
  | Some c =>
      match ProductDoc.category d with
      | Some c' => String.eqb c' c
      | None => false
      end
  | None => true
  end &&
  match or_regex with
  | Some r =>
      regex_field r (ProductDoc.name d) || regex_field r (ProductDoc.description d)
  | None => true
  end.

(** [get_products]; the result is [None] when the search pattern is outside
    the modelled regex fragment. *)
Definition get_products (category search : option string) (db : Db)
  : option (response (list Product.t)) :=
  let q_category := if truthy category then category else None in
  let q_or :=
    if truthy search
    then match search with
         | Some pattern => option_map Some (Regex.compile pattern)
         | None => Some None
         end
    else Some None in
  match q_or with
  | None => None
  | Some q_or =>
      let products :=
        Collection.to_list 1000
          (Collection.find (products_query q_category q_or) (products db)) in
      match Product_parse_all products with
      | Some l => Some (Ok l)
      | None => Some InternalServerError
      end
  end.

Definition get_product (product_id : string) (db : Db) : response Product.t :=
  match Collection.find_one (product_by_id product_id) (products db) with
  | None => HTTPException 404 "Product not found"
  | Some product =>
      match Product_parse product with
      | Some p => Ok p
      | None => InternalServerError
      end
  end.

Definition create_product (env : Env) (product : ProductCreate.t) (db : Db)
  : response Product.t * Db :=
  let product_obj :=
    Product.mk (uuid4 env 0) (ProductCreate.name product)
      (ProductCreate.description product) (ProductCreate.price product)
      (ProductCreate.image_url product) (ProductCreate.category product)
      (ProductCreate.stock product) (utcnow env 0) in
  (Ok product_obj,
   with_products db
     (Collection.insert_one (Product_dict product_obj) (products db))).

Definition update_product (product_id : string)
  (product_update : ProductUpdate.t) (db : Db) : response Product.t * Db :=
  match Collection.find_one (product_by_id product_id) (products db) with
  | None => (HTTPException 404 "Product not found", db)
  | Some _ =>
      let db' :=
        if update_data_nonempty product_update
        then with_products db
               (snd (Collection.update_one (product_by_id product_id)
                       (apply_set product_update) (products db)))
        else db in
      match Collection.find_one (product_by_id product_id) (products db') with
      | Some updated_product =>
          match Product_parse updated_product with
          | Some p => (Ok p, db')
          | None => (InternalServerError, db')
          end
      | None => (InternalServerError, db')
      end
  end.

Definition delete_product (product_id : string) (db : Db)
  : response string * Db :=
  let (deleted_count, ps) :=
    Collection.delete_one (product_by_id product_id) (products db) in
  if Nat.eqb deleted_count 0
  then (HTTPException 404 "Product not found", db)
  else (Ok "Product deleted successfully", with_products db ps).

(** ** Cart routes

    [current_user] is the [User] the dependency [get_current_user] resolved
    from the bearer token. *)

Definition cart_by_user (user_id : string) (i : CartItem.t) : bool :=
  String.eqb (CartItem.user_id i) user_id.

Definition cart_by_user_product (user_id product_id : string) (i : CartItem.t)
  : bool :=
  String.eqb (CartItem.user_id i) user_id &&
  String.eqb (CartItem.product_id i) product_id.

Definition cart_by_id (item_id : string) (i : CartItem.t) : bool :=
  String.eqb (CartItem.id i) item_id.

Definition cart_by_id_user (item_id user_id : string) (i : CartItem.t) : bool :=
  String.eqb (CartItem.id i) item_id &&
  String.eqb (CartItem.user_id i) user_id.

(** [{"$set": {"quantity": q}}] on one document. *)
Definition set_quantity (q : Z) (i : CartItem.t) : CartItem.t :=
  CartItem.mk (CartItem.id i) (CartItem.user_id i) (CartItem.product_id i) q
    (CartItem.created_at i).

(** The loop of [get_cart] over the items found: an item whose product is
    found is appended with the validated product, an item whose product is
    not found is skipped; a product that does not validate raises. *)
Fixpoint get_cart_loop (ps : list ProductDoc.t) (items : list CartItem.t)
  : option (list CartEntry.t) :=
  match items with
  | [] => Some []
  | item :: rest =>
      match Collection.find_one (product_by_id (CartItem.product_id item)) ps with
      | Some product =>
          match Product_parse product with
          | Some p =>
              option_map
                (cons (CartEntry.mk (CartItem.id item) (CartItem.quantity item) p))
                (get_cart_loop ps rest)
          | None => None
          end
      | None => get_cart_loop ps rest
      end
  end.

Definition get_cart (current_user : User.t) (db : Db)
  : response (list CartEntry.t) :=
  let items :=
    Collection.to_list 1000
      (Collection.find (cart_by_user (User.id current_user)) (cart_items db)) in
  match get_cart_loop (products db) items with
  | Some result => Ok result
  | None => InternalServerError
  end.

Definition add_to_cart (env : Env) (cart_item : CartItemCreate.t)
  (current_user : User.t) (db : Db) : response string * Db :=
  match Collection.find_one
          (product_by_id (CartItemCreate.product_id cart_item)) (products db)
  with
  | None => (HTTPException 404 "Product not found", db)
  | Some _ =>
      match Collection.find_one
              (cart_by_user_product (User.id current_user)
                 (CartItemCreate.product_id cart_item)) (cart_items db)
      with
      | Some existing_item =>
          let new_quantity :=
            CartItem.quantity existing_item + CartItemCreate.quantity cart_item in
          (Ok "Cart item updated",
           with_cart_items db
             (snd (Collection.update_one
                     (cart_by_id (CartItem.id existing_item))
                     (set_quantity new_quantity) (cart_items db))))
      | None =>
          let cart_item_obj :=
            CartItem.mk (uuid4 env 0) (User.id current_user)
              (CartItemCreate.product_id cart_item)
              (CartItemCreate.quantity cart_item) (utcnow env 0) in
          (Ok "Item added to cart",
           with_cart_items db
             (Collection.insert_one cart_item_obj (cart_items db)))
      end
  end.

Definition update_cart_item (item_id : string) (quantity : Z)
  (current_user : User.t) (db : Db) : response string * Db :=
  let (matched_count, cs) :=
    Collection.update_one (cart_by_id_user item_id (User.id current_user))
      (set_quantity quantity) (cart_items db) in
  if Nat.eqb matched_count 0
  then (HTTPException 404 "Cart item not found", with_cart_items db cs)
  else (Ok "Cart item updated", with_cart_items db cs).

Definition remove_from_cart (item_id : string) (current_user : User.t)
  (db : Db) : response string * Db :=
  let (deleted_count, cs) :=
    Collection.delete_one (cart_by_id_user item_id (User.id current_user))
      (cart_items db) in
  if Nat.eqb deleted_count 0
  then (HTTPException 404 "Cart item not found", with_cart_items db cs)
  else (Ok "Item removed from cart", with_cart_items db cs).

(** ** Order routes *)

Definition order_by_user (user_id : string) (o : Order.t) : bool :=
  String.eqb (Order.user_id o) user_id.

Definition create_order (env : Env) (order : OrderCreate.t)
  (current_user : User.t) (db : Db) : response Order.t * Db :=
  let order_obj :=
    Order.mk (uuid4 env 0) (User.id current_user) (OrderCreate.items order)
      (OrderCreate.total_amount order) "pending"
      (OrderCreate.shipping_address order) (utcnow env 0) in
  let db1 := with_orders db (Collection.insert_one order_obj (orders db)) in
  let db2 :=
    with_cart_items db1
      (Collection.delete_many (cart_by_user (User.id current_user))
         (cart_items db1)) in
  (Ok order_obj, db2).

Definition get_user_orders (current_user : User.t) (db : Db)
  : response (list Order.t) :=
  Ok (Collection.to_list 1000
        (Collection.find (order_by_user (User.id current_user)) (orders db))).

(** ** Startup seeding *)

Local Open Scope float_scope.

(** The eight sample products of [create_sample_data]: name, description,
    price, image, category and stock. *)
Definition sample_products_data
  : list (string * string * float * string * string * Z) :=
  [ ("Premium Wireless Headphones",
     "High-quality wireless headphones with noise cancellation and premium sound quality.",
     199.99, "https://images.unsplash.com/photo-1498049794561-7780e7231661",
     "Electronics", 50%Z);
    ("MacBook Pro 13-inch",
     "Apple MacBook Pro with M2 chip, perfect for professionals and creatives.",
     1299.99, "https://images.unsplash.com/photo-1611186871348-b1ce696e52c9",
     "Electronics", 25%Z);
    ("Modern Tech Workspace Setup",
     "Complete workspace setup with monitor, keyboard, and accessories.",
     899.99, "https://images.unsplash.com/photo-1588508065123-287b28e013da",
     "Electronics", 15%Z);
    ("Designer Shopping Collection",
     "Curated fashion collection with premium shopping bags and accessories.",
     149.99, "https://images.unsplash.com/photo-1483985988355-763728e1935b",
     "Fashion", 30%Z);
    ("Stylish Sunglasses",
     "Premium designer sunglasses with UV protection and modern styling.",
     89.99, "https://images.unsplash.com/photo-1529139574466-a303027c1d8b",
     "Fashion", 100%Z);
    ("Premium Beauty Set",
     "Luxury beauty and cosmetic products for your skincare routine.",
     79.99, "https://images.unsplash.com/photo-1629198688000-71f23e745b6e",
     "Beauty", 60%Z);
    ("Nike Air Max Sneakers",
     "Classic Nike Air Max sneakers with comfortable fit and iconic design.",
     129.99, "https://images.unsplash.com/photo-1542291026-7eec264c27ff",
     "Fashion", 75%Z);
    ("Wireless Bluetooth Headphones",
     "Compact wireless headphones with excellent sound quality and long battery life.",
     79.99, "https://images.unsplash.com/photo-1505740420928-5e560c06d30e",
     "Electronics", 80%Z) ].

Local Close Scope float_scope.

(** The documents of [sample_products], the [k]-th with the [k]-th id and
    timestamp drawn. *)
Fixpoint sample_products_from (env : Env) (k : nat)
  (data : list (string * string * float * string * string * Z))
  : list ProductDoc.t :=
  match data with
  | [] => []
  | (n, d, p, i, c, s) :: data' =>
      ProductDoc.mk (uuid4 env k) (Some n) (Some d) (Some p) (Some i) (Some c)
        (Some s) (utcnow env k)
      :: sample_products_from env (S k) data'
  end.

Definition sample_products (env : Env) : list ProductDoc.t :=
  sample_products_from env 0 sample_products_data.

Definition create_sample_data (env : Env) (db : Db) : Db :=
  let existing_products :=
    Collection.count_documents (fun _ => true) (products db) in
  if Nat.eqb existing_products 0
  then with_products db
         (Collection.insert_many (sample_products env) (products db))
  else db.

(** ** Predicates of the specification *)

(** The ids of the cart items are pairwise distinct (they are drawn by
    [uuid4]). *)
Definition unique_cart_ids (cs : list CartItem.t) : Prop :=
  NoDup (map CartItem.id cs).

(** A stored document that validates as a [Product]. *)
Definition well_formed (d : ProductDoc.t) : Prop :=
  exists p, Product_parse d = Some p.





(** Non-negative price and stock of a stored product. *)
Definition nonneg_price_stock (d : ProductDoc.t) : Prop :=
  match ProductDoc.price d, ProductDoc.stock d with
  | Some p, Some s => PrimFloat.leb 0 p = true /\ 0 <= s
  | _, _ => False
  end.

(** A set field of an update carries a non-negative value. *)
Definition nonneg_update (u : ProductUpdate.t) : Prop :=
  match ProductUpdate.price u with
  | None => True
  | Some (Some p) => PrimFloat.leb 0 p = true
  | Some None => False
  end /\
  match ProductUpdate.stock u with
  | None => True
  | Some (Some s) => 0 <= s
  | Some None => False
  end.

(** The entry [get_cart] builds for an item and its product. *)
Definition cart_entry (i : CartItem.t) (p : Product.t) : CartEntry.t :=
  CartEntry.mk (CartItem.id i) (CartItem.quantity i) p.

(** The items of [u] that [get_cart] reads: the first 1000 in store order. *)
Definition items_read (u : User.t) (db : Db) : list CartItem.t :=
  firstn 1000 (filter (cart_by_user (User.id u)) (cart_items db)).

(** Some stored product carries the product id of the item. *)
Definition has_product (ps : list ProductDoc.t) (i : CartItem.t) : bool :=
  match Collection.find_one (product_by_id (CartItem.product_id i)) ps with
  | Some _ => true
  | None => false
  end.

(** [e] is the entry of item [i]: its id, its quantity and the product its
    product id resolves to. *)
Definition entry_of (ps : list ProductDoc.t) (i : CartItem.t)
  (e : CartEntry.t) : Prop :=
  exists p,
    Collection.find_one (product_by_id (CartItem.product_id i)) ps =
      Some (Product_dict p) /\
    e = cart_entry i p.

(** ** Concrete data for the examples *)

Module Demo.

Definition env : Env :=
  mkEnv (fun k => ("id-" ++ string_of_list_ascii (repeat "x"%char k))%string)
        (fun k => 1700000000000000 + Z.of_nat k) "salt".

Definition env2 : Env :=
  mkEnv (fun k => ("id2-" ++ string_of_list_ascii (repeat "x"%char k))%string)
        (fun k => 1700000001000000 + Z.of_nat k) "pepper".

(** Stand-ins for the password hasher and the token encoder. *)
Definition hash (salt password : string) : string :=
  ("$" ++ salt ++ "$" ++ password)%string.

Definition verify (password hashed : string) : bool :=
  String.eqb hashed (hash "salt" password).

Definition encode (c : Claims) : string := ("jwt:" ++ sub c)%string.

Definition alice : User.t :=
  User.mk "u-alice" "alice@example.com" "Alice" (hash "salt" "secret") true 5.

Definition bob : User.t :=
  User.mk "u-bob" "bob@example.com" "Bob" (hash "salt" "hunter2") true 6.

Definition mug : Product.t :=
  Product.mk "p-mug" "Mug" "Ceramic" 7.5%float "http://img/mug" "Kitchen" 3 10.

Definition lamp : Product.t :=
  Product.mk "p-lamp" "Desk Lamp" "Warm light" 20%float "http://img/lamp"
    "Home" 8 11.

Definition bobs_item : CartItem.t := CartItem.mk "c-1" "u-bob" "p-mug" 4 12.

Definition alices_item : CartItem.t := CartItem.mk "c-2" "u-alice" "p-lamp" 1 13.

Definition db : Db :=
  mkDb [alice; bob] [Product_dict mug; Product_dict lamp]
       [bobs_item; alices_item] [].

Definition empty_db : Db := mkDb [] [] [] [].

(** Alice's cart also holds an item whose product was deleted. *)
Definition dangling_item : CartItem.t :=
  CartItem.mk "c-3" "u-alice" "p-gone" 2 14.

Definition db_dangling : Db :=
  mkDb [alice; bob] [Product_dict mug; Product_dict lamp]
       [bobs_item; dangling_item; alices_item] [].

(** A store where Alice has 1001 items, each for a product of its own. *)
Definition numbered (prefix : string) (k : nat) : string :=
  (prefix ++ NilEmpty.string_of_uint (Nat.to_uint k))%string.

Definition nth_product (k : nat) : Product.t :=
  Product.mk (numbered "p" k) "Item" "Thing" 1%float "http://img/item" "Misc"
    1 (Z.of_nat k).

Definition nth_item (k : nat) : CartItem.t :=
  CartItem.mk (numbered "c" k) "u-alice" (numbered "p" k) 1 (Z.of_nat k).

Definition crowded_db : Db :=
  mkDb [alice] (map (fun k => Product_dict (nth_product k)) (seq 0 1001))
       (map nth_item (seq 0 1001)) [].

(** A product submitted with a negative price and a negative stock. *)
Definition refund : ProductCreate.t :=
  ProductCreate.mk "Refund" "Pays the buyer" (-1)%float "http://img/refund"
    "Misc" (-5).

End Demo.

(** ** The rest of the handlers *)





Section CurrentUser.

(** [jwt.decode] with the fixed key and algorithm, at the time of the
    request: the payload, or [None] when it raises a [PyJWTError] (bad
    signature, malformed or expired token). *)
Variable jwt_decode : string -> option dict.


(** [get_current_user_profile] *)
Definition get_current_user_profile (current_user : User.t) : User.t :=
  current_user.

End CurrentUser.

(** An entry of the list [get_categories] returns. *)
Module CategoryCount.
Record t := mk {
  category : option string;
  count : Z
}.
End CategoryCount.

Definition category_eqb (a b : option string) : bool :=
  match a, b with
  | Some x, Some y => String.eqb x y
  | None, None => true
  | _, _ => false
  end.

(** One more document of category [k] for the groups built so far. *)
Fixpoint bump (k : option string) (groups : list CategoryCount.t)
  : list CategoryCount.t :=
  match groups with
  | [] => [CategoryCount.mk k 1]
  | g :: groups' =>
      if category_eqb (CategoryCount.category g) k
      then CategoryCount.mk k (CategoryCount.count g + 1) :: groups'
      else g :: bump k groups'
  end.

(** The pipeline of [get_categories]: [$group] by category with [$sum: 1],
    then the projection to [category] and [count].  The store leaves the
    order of the groups open; here a group stands where its category first
    occurs. *)
Definition group_by_category (ps : list ProductDoc.t) : list CategoryCount.t :=
  fold_left (fun groups d => bump (ProductDoc.category d) groups) ps [].

Definition get_categories (db : Db) : list CategoryCount.t :=
  Collection.to_list 1000 (group_by_category (products db)).

(** ** More predicates *)

Definition unique_product_ids (ps : list ProductDoc.t) : Prop :=
  NoDup (map ProductDoc.id ps).

(** At most one cart item for a user and a product. *)
Definition one_item_per_pair (cs : list CartItem.t) : Prop :=
  NoDup (map (fun i => (CartItem.user_id i, CartItem.product_id i)) cs).

(** What [set_quantity] keeps of an item. *)
Definition item_key (i : CartItem.t) : string * string * string * datetime :=
  (CartItem.id i, CartItem.user_id i, CartItem.product_id i,
   CartItem.created_at i).

(** The cart items that do not belong to [uid]. *)
Definition items_of_others (uid : string) (cs : list CartItem.t)
  : list CartItem.t :=
  filter (fun i => negb (cart_by_user uid i)) cs.

(** A field of the update is set to [null]. *)
Definition sets_null (u : ProductUpdate.t) : Prop :=
  ProductUpdate.name u = Some None \/
  ProductUpdate.description u = Some None \/
  ProductUpdate.price u = Some None \/
  ProductUpdate.image_url u = Some None \/
  ProductUpdate.category u = Some None \/
  ProductUpdate.stock u = Some None.

(** The stored products whose category is [k]. *)
Definition products_in_category (k : option string) (ps : list ProductDoc.t)
  : list ProductDoc.t :=
  filter (fun d => category_eqb (ProductDoc.category d) k) ps.

Definition total_count (groups : list CategoryCount.t) : Z :=
  fold_right Z.add 0 (map CategoryCount.count groups).

(** The groups are the categories of [ps], each once, with the number of
    its products. *)
Definition counts_products (groups : list CategoryCount.t)
  (ps : list ProductDoc.t) : Prop :=
  NoDup (map CategoryCount.category groups) /\
  (forall g, In g groups ->
     CategoryCount.count g =
       Z.of_nat (List.length (products_in_category (CategoryCount.category g) ps))
     /\ 1 <= CategoryCount.count g) /\
  (forall d, In d ps ->
     In (ProductDoc.category d) (map CategoryCount.category groups)) /\
  total_count groups = Z.of_nat (List.length ps) /\
  (List.length groups <= List.length ps)%nat.

Module Demo2.


Definition carol : UserCreate.t :=
  UserCreate.mk "carol@example.com" "Carol" "secret".



Definition order : OrderCreate.t :=
  OrderCreate.mk [[("product_id", JStr "p-lamp"); ("quantity", JInt 1)]]
    20%float [("city", JStr "Paris")].

End Demo2.

(** * Properties *)

(** ** The document store *)

Section CollectionFacts.
Context {A : Type}.
Variable q : A -> bool.

Lemma find_one_split (c : list A) (d : A) :
  Collection.find_one q c = Some d ->
  exists l1 l2,
    c = l1 ++ d :: l2 /\ q d = true /\ Forall (fun x => q x = false) l1.
Proof.
  unfold Collection.find_one.
  induction c as [|x c IH]; simpl; [discriminate|].
  destruct (q x) eqn:Hx.
  - intros [= ->]. exists [], c. auto.
  - intros H. destruct (IH H) as (l1 & l2 & -> & Hd & Hl1).
    exists (x :: l1), l2. auto.
Qed.

Lemma find_one_none (c : list A) :
  Collection.find_one q c = None <-> Forall (fun x => q x = false) c.
Proof.
  unfold Collection.find_one. split.
  - intros H. apply Forall_forall. intros x Hx.
    exact (find_none q c H x Hx).
  - induction 1 as [|x c Hx _ IH]; simpl; [reflexivity|].
    now rewrite Hx.
Qed.

Lemma find_one_exists (c : list A) :
  (exists d, In d c /\ q d = true) -> exists d, Collection.find_one q c = Some d.
Proof.
  intros (d & Hin & Hd).
  destruct (Collection.find_one q c) eqn:E; [eauto|].
  apply find_one_none in E. rewrite Forall_forall in E.
  specialize (E d Hin). congruence.
Qed.

Lemma filter_nomatch (c : list A) :
  Forall (fun x => q x = false) c -> filter q c = [].
Proof.
  induction 1 as [|x c Hx _ IH]; simpl; [reflexivity|].
  now rewrite Hx.
Qed.

Lemma update_one_nomatch (f : A -> A) (c : list A) :
  Forall (fun x => q x = false) c -> Collection.update_one q f c = (0%nat, c).
Proof.
  induction 1 as [|x c Hx _ IH]; simpl; [reflexivity|].
  now rewrite Hx, IH.
Qed.

Lemma update_one_first (f : A -> A) (l1 l2 : list A) (d : A) :
  Forall (fun x => q x = false) l1 -> q d = true ->
  Collection.update_one q f (l1 ++ d :: l2) = (1%nat, l1 ++ f d :: l2).
Proof.
  intros Hl1 Hd.
  induction Hl1 as [|x l1 Hx _ IH]; simpl.
  - now rewrite Hd.
  - now rewrite Hx, IH.
Qed.

Lemma delete_one_nomatch (c : list A) :
  Forall (fun x => q x = false) c -> Collection.delete_one q c = (0%nat, c).
Proof.
  induction 1 as [|x c Hx _ IH]; simpl; [reflexivity|].
  now rewrite Hx, IH.
Qed.

Lemma delete_one_first (l1 l2 : list A) (d : A) :
  Forall (fun x => q x = false) l1 -> q d = true ->
  Collection.delete_one q (l1 ++ d :: l2) = (1%nat, l1 ++ l2).
Proof.
  intros Hl1 Hd.
  induction Hl1 as [|x l1 Hx _ IH]; simpl.
  - now rewrite Hd.
  - now rewrite Hx, IH.
Qed.

Lemma delete_many_none_left (c : list A) :
  filter q (Collection.delete_many q c) = [].
Proof.
  unfold Collection.delete_many.
  apply filter_nomatch, Forall_forall.
  intros x Hx. apply filter_In in Hx as [_ Hx].
  now apply negb_true_iff.
Qed.

End CollectionFacts.

Lemma nodup_snoc {A : Type} (l : list A) (x : A) :
  ~ In x l -> NoDup l -> NoDup (l ++ [x]).
Proof.
  intros Hx Hl. induction Hl as [|y l Hy Hl IH]; simpl.
  - constructor; [intros []|constructor].
  - constructor.
    + rewrite in_app_iff. intros [H|[H|[]]]; [contradiction|].
      subst. apply Hx. now left.
    + apply IH. intros H. apply Hx. now right.
Qed.


Lemma with_products_same (db : Db) : with_products db (products db) = db.
Proof. now destruct db. Qed.

(** ** Queries and what they select *)

Lemma product_by_id_true (pid : string) (d : ProductDoc.t) :
  product_by_id pid d = true <-> ProductDoc.id d = pid.
Proof. unfold product_by_id. apply String.eqb_eq. Qed.

Lemma cart_by_user_product_true (uid pid : string) (i : CartItem.t) :
  cart_by_user_product uid pid i = true <->
  CartItem.user_id i = uid /\ CartItem.product_id i = pid.
Proof.
  unfold cart_by_user_product.
  rewrite andb_true_iff, !String.eqb_eq. reflexivity.
Qed.

Lemma cart_by_id_user_true (iid uid : string) (i : CartItem.t) :
  cart_by_id_user iid uid i = true <->
  CartItem.id i = iid /\ CartItem.user_id i = uid.
Proof.
  unfold cart_by_id_user.
  rewrite andb_true_iff, !String.eqb_eq. reflexivity.
Qed.

Lemma cart_by_id_true (iid : string) (i : CartItem.t) :
  cart_by_id iid i = true <-> CartItem.id i = iid.
Proof. unfold cart_by_id. apply String.eqb_eq. Qed.

Lemma product_found (pid : string) (ps : list ProductDoc.t) :
  (exists p, In p ps /\ ProductDoc.id p = pid) ->
  exists p, Collection.find_one (product_by_id pid) ps = Some p.
Proof.
  intros (p & Hin & Hid). apply find_one_exists.
  exists p. split; [assumption|]. now apply product_by_id_true.
Qed.

Lemma product_not_found (pid : string) (ps : list ProductDoc.t) :
  (forall p, In p ps -> ProductDoc.id p <> pid) ->
  Collection.find_one (product_by_id pid) ps = None.
Proof.
  intros H. apply find_one_none, Forall_forall. intros p Hp.
  apply not_true_is_false. rewrite product_by_id_true. now apply H.
Qed.


(** Under unique ids no document before [e] carries the id of [e]. *)
Lemma unique_ids_before (l1 l2 : list CartItem.t) (e : CartItem.t) :
  unique_cart_ids (l1 ++ e :: l2) ->
  Forall (fun i => cart_by_id (CartItem.id e) i = false) l1.
Proof.
  unfold unique_cart_ids. rewrite map_app. simpl. intros H.
  apply NoDup_remove_2 in H.
  apply Forall_forall. intros i Hi.
  apply not_true_is_false. rewrite cart_by_id_true. intros Heq.
  apply H, in_or_app. left. rewrite <- Heq. now apply in_map.
Qed.


(** ** add_to_cart *)





Lemma update_one_keeps_ids (q : CartItem.t -> bool) (n : Z)
  (cs : list CartItem.t) :
  map CartItem.id (snd (Collection.update_one q (set_quantity n) cs)) =
  map CartItem.id cs.
Proof.
  induction cs as [|c cs IH]; simpl; [reflexivity|].
  destruct (q c); simpl; [reflexivity|].
  destruct (Collection.update_one q (set_quantity n) cs) as [k r].
  simpl in *. now rewrite IH.
Qed.

(** Unique item ids are kept by [add_to_cart] when [uuid4] draws a fresh id. *)
Lemma add_to_cart_keeps_unique_ids (env : Env) (ci : CartItemCreate.t)
  (u : User.t) (db : Db) :
  ~ In (uuid4 env 0) (map CartItem.id (cart_items db)) ->
  unique_cart_ids (cart_items db) ->
  unique_cart_ids (cart_items (snd (add_to_cart env ci u db))).
Proof.
  intros Hfresh Hids. unfold add_to_cart.
  destruct (Collection.find_one _ (products db)); [|assumption].
  destruct (Collection.find_one _ (cart_items db)) as [e|].
  - cbn [snd cart_items with_cart_items]. unfold unique_cart_ids.
    now rewrite update_one_keeps_ids.
  - cbn [snd cart_items with_cart_items]. unfold unique_cart_ids.
    unfold Collection.insert_one. rewrite map_app. simpl.
    now apply nodup_snoc.
Qed.



(** ** update_cart_item and remove_from_cart *)







(** ** create_order *)

(** C2.  [create_order] for an authenticated user [u] always succeeds; the
    order it returns is appended to the orders and carries the submitted
    items, total amount and shipping address unchanged, the owner [u] and the
    status "pending"; afterwards the cart holds no item of [u], whatever the
    submitted items were, and exactly the items of the other users remain;
    users and products are untouched. *)
Theorem create_order_snapshots_and_clears_cart (env : Env)
  (order : OrderCreate.t) (u : User.t) (db : Db) :
  exists o,
    fst (create_order env order u db) = Ok o /\
    orders (snd (create_order env order u db)) = orders db ++ [o] /\
    Order.items o = OrderCreate.items order /\
    Order.total_amount o = OrderCreate.total_amount order /\
    Order.shipping_address o = OrderCreate.shipping_address order /\
    Order.user_id o = User.id u /\
    Order.status o = "pending" /\
    filter (cart_by_user (User.id u))
      (cart_items (snd (create_order env order u db))) = [] /\
    (forall i, In i (cart_items (snd (create_order env order u db))) <->
               In i (cart_items db) /\ CartItem.user_id i <> User.id u) /\
    users (snd (create_order env order u db)) = users db /\
    products (snd (create_order env order u db)) = products db.
Proof.
  eexists. unfold create_order. cbn [fst snd orders cart_items users products
    with_orders with_cart_items Order.items Order.total_amount
    Order.shipping_address Order.user_id Order.status].
  repeat split; try reflexivity.
  - apply delete_many_none_left.
  - unfold Collection.delete_many in H. now apply filter_In in H.
  - unfold Collection.delete_many in H. apply filter_In in H as [_ H].
    unfold cart_by_user in H. apply negb_true_iff in H.
    now apply String.eqb_neq in H.
  - intros [Hin Hne]. unfold Collection.delete_many. apply filter_In.
    split; [assumption|]. apply negb_true_iff. now apply String.eqb_neq.
Qed.

(** ** login and register *)

Lemma by_email_true (email : string) (u : User.t) :
  by_email email u = true <-> User.email u = email.
Proof. unfold by_email. apply String.eqb_eq. Qed.

Lemma no_user_with_email (email : string) (us : list User.t) :
  (forall u, In u us -> User.email u <> email) ->
  Collection.find_one (by_email email) us = None.
Proof.
  intros H. apply find_one_none, Forall_forall. intros u Hu.
  apply not_true_is_false. rewrite by_email_true. now apply H.
Qed.





Lemma register_inserts (get_password_hash : string -> string -> string)
  (jwt_encode : Claims -> string) (env : Env) (user : UserCreate.t) (db : Db) :
  (forall u, In u (users db) -> User.email u <> UserCreate.email user) ->
  register get_password_hash jwt_encode env user db =
    (Ok (Token.mk
           (jwt_encode
              (mkClaims (uuid4 env 0)
                 (utcnow env 1 + minutes ACCESS_TOKEN_EXPIRE_MINUTES)))
           "bearer"),
     with_users db
       (users db ++
        [User.mk (uuid4 env 0) (UserCreate.email user)
           (UserCreate.full_name user)
           (get_password_hash (salt env) (UserCreate.password user)) true
           (utcnow env 0)])).
Proof.
  intros H. unfold register. now rewrite (no_user_with_email _ _ H).
Qed.



(** ** update_product *)







(** ** Price and stock of the stored products *)

Lemma update_one_preserves {A : Type} (P : A -> Prop) (q : A -> bool)
  (f : A -> A) (c : list A) :
  (forall d, P d -> P (f d)) -> Forall P c ->
  Forall P (snd (Collection.update_one q f c)).
Proof.
  intros Hf. induction 1 as [|x c Hx Hc IH]; simpl; [constructor|].
  destruct (q x).
  - simpl. constructor; auto.
  - destruct (Collection.update_one q f c) as [n r]. simpl in *.
    constructor; assumption.
Qed.

Lemma delete_one_preserves {A : Type} (P : A -> Prop) (q : A -> bool)
  (c : list A) :
  Forall P c -> Forall P (snd (Collection.delete_one q c)).
Proof.
  induction 1 as [|x c Hx Hc IH]; simpl; [constructor|].
  destruct (q x).
  - assumption.
  - destruct (Collection.delete_one q c) as [n r]. simpl in *.
    constructor; assumption.
Qed.

Lemma apply_set_nonneg (u : ProductUpdate.t) (d : ProductDoc.t) :
  nonneg_update u -> nonneg_price_stock d -> nonneg_price_stock (apply_set u d).
Proof.
  unfold nonneg_update, nonneg_price_stock, apply_set. simpl.
  destruct (ProductUpdate.price u) as [[p|]|], (ProductUpdate.stock u) as [[s|]|];
    simpl; intros [Hp Hs]; try contradiction;
    destruct (ProductDoc.price d), (ProductDoc.stock d); intuition.
Qed.

Lemma sample_products_nonneg (env : Env) :
  Forall nonneg_price_stock (sample_products env).
Proof.
  unfold sample_products, sample_products_data. simpl.
  repeat constructor; simpl; lia.
Qed.

(** C8, as the code has it.  Price and stock are stored as submitted: no
    handler checks their sign.  Non-negative price and stock of every stored
    product is kept by the startup seeding and by [delete_product]; by
    [create_product] when the submitted price and stock are non-negative; and
    by [update_product] when each of price and stock is either not set or set
    to a non-negative value. *)
Theorem nonneg_price_stock_preserved :
  (forall env db,
     Forall nonneg_price_stock (products db) ->
     Forall nonneg_price_stock (products (create_sample_data env db))) /\
  (forall env product db,
     PrimFloat.leb 0 (ProductCreate.price product) = true ->
     0 <= ProductCreate.stock product ->
     Forall nonneg_price_stock (products db) ->
     Forall nonneg_price_stock (products (snd (create_product env product db)))) /\
  (forall pid u db,
     nonneg_update u ->
     Forall nonneg_price_stock (products db) ->
     Forall nonneg_price_stock (products (snd (update_product pid u db)))) /\
  (forall pid db,
     Forall nonneg_price_stock (products db) ->
     Forall nonneg_price_stock (products (snd (delete_product pid db)))).
Proof.
  split; [|split; [|split]].
  - intros env db H. unfold create_sample_data.
    destruct (Nat.eqb _ 0); [|assumption].
    cbn [products with_products]. unfold Collection.insert_many.
    apply Forall_app. split; [assumption|apply sample_products_nonneg].
  - intros env product db Hp Hs H. unfold create_product.
    cbn [snd products with_products]. unfold Collection.insert_one.
    apply Forall_app. split; [assumption|].
    constructor; [|constructor]. unfold nonneg_price_stock. simpl. auto.
  - intros pid u db Hu H. unfold update_product.
    destruct (Collection.find_one (product_by_id pid) (products db));
      [|assumption].
    assert (H' : Forall nonneg_price_stock
                   (products
                      (if update_data_nonempty u
                       then with_products db
                              (snd (Collection.update_one (product_by_id pid)
                                      (apply_set u) (products db)))
                       else db))).
    { destruct (update_data_nonempty u); [|assumption].
      cbn [products with_products]. apply update_one_preserves; [|assumption].
      intros d. now apply apply_set_nonneg. }
    destruct (Collection.find_one _ _) as [d|]; [|assumption].
    destruct (Product_parse d); assumption.
  - intros pid db H. unfold delete_product.
    pose proof (delete_one_preserves nonneg_price_stock (product_by_id pid)
                  (products db) H) as Hd.
    destruct (Collection.delete_one (product_by_id pid) (products db))
      as [n ps]. simpl in Hd.
    destruct (Nat.eqb n 0); assumption.
Qed.

Lemma nonneg_price_stock_preserved_witness :
  Forall nonneg_price_stock
    (products (create_sample_data Demo.env Demo.empty_db)) /\
  Forall nonneg_price_stock
    (products
       (snd (create_product Demo.env
               (ProductCreate.mk "Kettle" "Steel" 35.5%float "http://img/k"
                  "Kitchen" 0)
               Demo.db))) /\
  Forall nonneg_price_stock
    (products
       (snd (update_product "p-mug"
               (ProductUpdate.mk None None (Some (Some 0%float)) None None None)
               Demo.db))).
Proof.
  assert (Hdb : Forall nonneg_price_stock (products Demo.db)).
  { simpl. repeat constructor; simpl; lia. }
  split; [|split].
  - apply (proj1 nonneg_price_stock_preserved). constructor.
  - apply (proj1 (proj2 nonneg_price_stock_preserved)).
    + reflexivity.
    + simpl. lia.
    + exact Hdb.
  - apply (proj1 (proj2 (proj2 nonneg_price_stock_preserved))).
    + split; [reflexivity | exact I].
    + exact Hdb.
Defined.

(** C8 fails as stated: from the empty product collection, where the
    invariant holds, [create_product] with a negative price and stock stores
    a product that breaks it. *)
Lemma create_product_stores_negative_price :
  Forall nonneg_price_stock (products Demo.empty_db) /\
  ~ Forall nonneg_price_stock
      (products (snd (create_product Demo.env Demo.refund Demo.empty_db))).
Proof.
  split; [constructor|].
  intros H. inversion H as [|d l Hd _]. subst.
  destruct Hd as [Hp _]. discriminate Hp.
Qed.

(** ** get_cart *)


Lemma parse_some_dict (d : ProductDoc.t) (p : Product.t) :
  Product_parse d = Some p -> d = Product_dict p.
Proof.
  unfold Product_parse.
  destruct d as [i [n|] [ds|] [pr|] [im|] [c|] [s|] t]; simpl;
    try discriminate.
  now intros [= <-].
Qed.

Lemma get_cart_loop_entries (ps : list ProductDoc.t) (items : list CartItem.t) :
  (forall i d, In i items ->
     Collection.find_one (product_by_id (CartItem.product_id i)) ps = Some d ->
     well_formed d) ->
  exists result,
    get_cart_loop ps items = Some result /\
    Forall2 (entry_of ps) (filter (has_product ps) items) result.
Proof.
  induction items as [|i items IH]; intros Hwf.
  - exists []. split; [reflexivity|constructor].
  - destruct IH as (rest & Hrest & Hall).
    { intros j d Hj. apply Hwf. now right. }
    simpl. unfold has_product.
    destruct (Collection.find_one (product_by_id (CartItem.product_id i)) ps)
      as [d|] eqn:Hd.
    + destruct (Hwf i d (or_introl eq_refl) Hd) as [p Hp].
      rewrite Hp, Hrest. simpl.
      exists (CartEntry.mk (CartItem.id i) (CartItem.quantity i) p :: rest).
      split; [reflexivity|]. constructor; [|assumption].
      exists p. split; [|reflexivity].
      rewrite Hd. f_equal. now apply parse_some_dict.
    + exists rest. split; assumption.
Qed.

(** C9, as the code has it.  [get_cart] reads the first 1000 cart items of
    the user, in store order.  When every product document these items
    resolve to is a well-formed product, the answer is a list with exactly
    one entry, in order, for each of these items whose product id resolves to
    a stored product: the item's id, its quantity and that product; an item
    whose product id resolves to no product gives no entry and no error. *)
Theorem get_cart_lists_items_with_products (u : User.t) (db : Db) :
  (forall i d, In i (items_read u db) ->
     Collection.find_one (product_by_id (CartItem.product_id i)) (products db)
       = Some d ->
     well_formed d) ->
  exists result,
    get_cart u db = Ok result /\
    Forall2 (entry_of (products db))
      (filter (has_product (products db)) (items_read u db)) result.
Proof.
  intros Hwf.
  destruct (get_cart_loop_entries (products db) (items_read u db) Hwf)
    as (result & Hloop & Hall).
  exists result. split; [|assumption].
  unfold get_cart. fold (items_read u db).
  unfold Collection.to_list, Collection.find. fold (items_read u db).
  now rewrite Hloop.
Qed.

Lemma get_cart_lists_items_with_products_witness :
  exists result,
    get_cart Demo.alice Demo.db_dangling = Ok result /\
    Forall2 (entry_of (products Demo.db_dangling))
      (filter (has_product (products Demo.db_dangling))
         (items_read Demo.alice Demo.db_dangling)) result.
Proof.
  apply get_cart_lists_items_with_products.
  simpl. intros i d [<-|[<-|[]]]; simpl.
  - discriminate.
  - intros [= <-]. exists Demo.lamp. reflexivity.
Defined.

Example get_cart_skips_dangling_item :
  get_cart Demo.alice Demo.db_dangling = Ok [cart_entry Demo.alices_item Demo.lamp].
Proof. reflexivity. Qed.

(** C9 fails as stated: in a store where a user owns 1001 cart items, each
    for a stored product of its own, [get_cart] answers 1000 entries and none
    for the last item. *)
Lemma get_cart_omits_item_after_1000 :
  In (Demo.nth_item 1000) (cart_items Demo.crowded_db) /\
  CartItem.user_id (Demo.nth_item 1000) = User.id Demo.alice /\
  Collection.find_one
    (product_by_id (CartItem.product_id (Demo.nth_item 1000)))
    (products Demo.crowded_db) = Some (Product_dict (Demo.nth_product 1000)) /\
  exists result,
    get_cart Demo.alice Demo.crowded_db = Ok result /\
    List.length result = 1000%nat /\
    forall e, In e result -> CartEntry.id e <> CartItem.id (Demo.nth_item 1000).
Proof.
  split; [|split; [|split]].
  - unfold Demo.crowded_db. cbn [cart_items].
    apply in_map, in_seq. lia.
  - reflexivity.
  - vm_compute. reflexivity.
  - exists (match get_cart Demo.alice Demo.crowded_db with
            | Ok r => r
            | _ => []
            end).
    split; [vm_compute; reflexivity|].
    split; [vm_compute; reflexivity|].
    intros e He.
    assert (Hall : forallb
              (fun e => negb (String.eqb (CartEntry.id e)
                                (CartItem.id (Demo.nth_item 1000))))
              (match get_cart Demo.alice Demo.crowded_db with
               | Ok r => r
               | _ => []
               end) = true).
    { vm_compute. reflexivity. }
    rewrite forallb_forall in Hall. specialize (Hall e He).
    apply negb_true_iff in Hall. apply String.eqb_neq. exact Hall.
Qed.

(** ** get_products *)








Lemma firstn_sublist {A : Type} (n : nat) (l : list A) (x : A) :
  In x (firstn n l) -> In x l.
Proof.
  revert l. induction n as [|n IH]; intros [|y l]; simpl; try contradiction.
  intros [H|H]; [now left|right; now apply IH].
Qed.




Example get_products_search_ignores_case :
  get_products (Some "Home") (Some "LAMP") Demo.db = Some (Ok [Demo.lamp]).
Proof. reflexivity. Qed.


(** C10.  An empty string for [category] or for [search] is the same as no
    parameter: the answers are equal whatever the other parameter and the
    database are; with both empty the answer is the unfiltered listing, the
    first 1000 stored products. *)
Theorem get_products_empty_parameter (category search : option string)
  (db : Db) :
  get_products (Some "") search db = get_products None search db /\
  get_products category (Some "") db = get_products category None db /\
  get_products (Some "") (Some "") db = get_products None None db /\
  get_products None None db =
    Some match Product_parse_all (firstn 1000 (products db)) with
         | Some l => Ok l
         | None => InternalServerError
         end.
Proof.
  repeat split; try reflexivity.
  unfold get_products. cbn [truthy].
  unfold Collection.to_list, Collection.find, products_query.
  assert (Hall : filter (fun _ : ProductDoc.t => true && true) (products db)
                 = products db).
  { induction (products db) as [|d l IH]; [reflexivity|].
    cbn [filter andb]. now f_equal. }
  rewrite Hall. now destruct (Product_parse_all _).
Qed.

(** * Further properties of the handlers *)

(** ** get_current_user, login and register together *)

Lemma find_one_in {A : Type} (q : A -> bool) (c : list A) (d : A) :
  Collection.find_one q c = Some d -> In d c /\ q d = true.
Proof.
  intros H. destruct (find_one_split q c d H) as (l1 & l2 & -> & Hq & _).
  split; [|assumption]. apply in_or_app. right. now left.
Qed.

Lemma find_one_after {A : Type} (q : A -> bool) (l1 : list A) (d : A)
  (l2 : list A) :
  Forall (fun x => q x = false) l1 -> q d = true ->
  Collection.find_one q (l1 ++ d :: l2) = Some d.
Proof.
  intros Hl1 Hd. unfold Collection.find_one.
  induction Hl1 as [|x l1 Hx _ IH]; simpl.
  - now rewrite Hd.
  - now rewrite Hx.
Qed.





(** X3.  A login never writes to the database, and it answers a token only
    for the first stored user with the submitted email and only when the
    submitted password verifies against that user's stored hash; the token
    then encodes that user's id with an expiry 30 minutes after issue. *)
Theorem login_only_with_verified_password
  (verify_password : string -> string -> bool) (jwt_encode : Claims -> string)
  (env : Env) (user_login : UserLogin.t) (db : Db) :
  snd (login verify_password jwt_encode env user_login db) = db /\
  (forall token,
     fst (login verify_password jwt_encode env user_login db) = Ok token ->
     exists u,
       Collection.find_one (by_email (UserLogin.email user_login)) (users db)
         = Some u /\
       In u (users db) /\ User.email u = UserLogin.email user_login /\
       verify_password (UserLogin.password user_login)
         (User.hashed_password u) = true /\
       token =
         Token.mk
           (jwt_encode
              (mkClaims (User.id u)
                 (utcnow env 0 + minutes ACCESS_TOKEN_EXPIRE_MINUTES)))
           "bearer") /\
  (forall u,
     Collection.find_one (by_email (UserLogin.email user_login)) (users db)
       = Some u ->
     verify_password (UserLogin.password user_login)
       (User.hashed_password u) = true ->
     fst (login verify_password jwt_encode env user_login db) =
       Ok (Token.mk
             (jwt_encode
                (mkClaims (User.id u)
                   (utcnow env 0 + minutes ACCESS_TOKEN_EXPIRE_MINUTES)))
             "bearer")).
Proof.
  unfold login.
  destruct (Collection.find_one (by_email (UserLogin.email user_login))
              (users db)) as [u|] eqn:Hf.
  - destruct (verify_password (UserLogin.password user_login)
                (User.hashed_password u)) eqn:Hv; simpl.
    + split; [reflexivity|]. split.
      * intros token [= <-]. exists u.
        destruct (find_one_in _ _ _ Hf) as [Hin Hq].
        apply by_email_true in Hq. repeat split; assumption.
      * intros u' [= <-] _. reflexivity.
    + split; [reflexivity|]. split; [discriminate|].
      intros u' [= <-] Hv'. congruence.
  - simpl. split; [reflexivity|]. split; discriminate.
Qed.

Lemma login_only_with_verified_password_witness :
  fst (login Demo.verify Demo.encode Demo.env
         (UserLogin.mk "bob@example.com" "hunter2") Demo.db) =
    Ok (Token.mk
          (Demo.encode
             (mkClaims "u-bob"
                (1700000000000000 + minutes ACCESS_TOKEN_EXPIRE_MINUTES)))
          "bearer").
Proof.
  apply (proj2 (proj2 (login_only_with_verified_password Demo.verify
                         Demo.encode Demo.env
                         (UserLogin.mk "bob@example.com" "hunter2") Demo.db))
           Demo.bob).
  - reflexivity.
  - reflexivity.
Defined.

(** X4.  Registration followed by login: when the email is free and the
    hasher verifies the password it has just hashed, a login with the same
    email and password on the database after the registration succeeds, its
    token encodes the id the registration drew, and it leaves that database
    unchanged. *)
Theorem register_then_login
  (verify_password : string -> string -> bool)
  (get_password_hash : string -> string -> string)
  (jwt_encode : Claims -> string) (env env' : Env) (user : UserCreate.t)
  (db : Db) :
  (forall u, In u (users db) -> User.email u <> UserCreate.email user) ->
  verify_password (UserCreate.password user)
    (get_password_hash (salt env) (UserCreate.password user)) = true ->
  login verify_password jwt_encode env'
    (UserLogin.mk (UserCreate.email user) (UserCreate.password user))
    (snd (register get_password_hash jwt_encode env user db)) =
  (Ok (Token.mk
         (jwt_encode
            (mkClaims (uuid4 env 0)
               (utcnow env' 0 + minutes ACCESS_TOKEN_EXPIRE_MINUTES)))
         "bearer"),
   snd (register get_password_hash jwt_encode env user db)).
Proof.
  intros Hfree Hverify.
  rewrite (register_inserts _ jwt_encode env user db Hfree). cbn [snd].
  unfold login. cbn [users with_users UserLogin.email UserLogin.password].
  pose proof (no_user_with_email _ _ Hfree) as Hnone.
  apply find_one_none in Hnone.
  assert (Hf : Collection.find_one (by_email (UserCreate.email user))
                 (users db ++
                  [User.mk (uuid4 env 0) (UserCreate.email user)
                     (UserCreate.full_name user)
                     (get_password_hash (salt env) (UserCreate.password user))
                     true (utcnow env 0)]) =
               Some (User.mk (uuid4 env 0) (UserCreate.email user)
                       (UserCreate.full_name user)
                       (get_password_hash (salt env) (UserCreate.password user))
                       true (utcnow env 0))).
  { apply find_one_after; [assumption|].
    unfold by_email. simpl. apply String.eqb_refl. }
  rewrite Hf. cbn [User.hashed_password User.id]. now rewrite Hverify.
Qed.

Lemma register_then_login_witness :
  login Demo.verify Demo.encode Demo.env2
    (UserLogin.mk "carol@example.com" "secret")
    (snd (register Demo.hash Demo.encode Demo.env Demo2.carol Demo.db)) =
  (Ok (Token.mk
         (Demo.encode
            (mkClaims "id-"
               (1700000001000000 + minutes ACCESS_TOKEN_EXPIRE_MINUTES)))
         "bearer"),
   snd (register Demo.hash Demo.encode Demo.env Demo2.carol Demo.db)).
Proof.
  apply (register_then_login Demo.verify Demo.hash Demo.encode Demo.env
           Demo.env2 Demo2.carol Demo.db).
  - simpl. intros u [<-|[<-|[]]]; discriminate.
  - reflexivity.
Defined.

(** ** Products: create, read, delete *)

Lemma find_one_app {A : Type} (q : A -> bool) (l1 l2 : list A) :
  Collection.find_one q (l1 ++ l2) =
  match Collection.find_one q l1 with
  | Some x => Some x
  | None => Collection.find_one q l2
  end.
Proof.
  unfold Collection.find_one.
  induction l1 as [|x l1 IH]; simpl; [reflexivity|].
  now destruct (q x).
Qed.

Lemma fresh_product_id (pid : string) (ps : list ProductDoc.t) :
  ~ In pid (map ProductDoc.id ps) ->
  Forall (fun d => product_by_id pid d = false) ps.
Proof.
  intros H. apply Forall_forall. intros d Hd. apply not_true_is_false.
  rewrite product_by_id_true. intros Heq. apply H.
  rewrite <- Heq. now apply in_map.
Qed.



Lemma unique_product_ids_around (l1 l2 : list ProductDoc.t) (d : ProductDoc.t) :
  unique_product_ids (l1 ++ d :: l2) ->
  Forall (fun x => product_by_id (ProductDoc.id d) x = false) (l1 ++ l2).
Proof.
  unfold unique_product_ids. rewrite map_app. simpl. intros H.
  apply NoDup_remove_2 in H. rewrite <- map_app in H.
  now apply fresh_product_id.
Qed.

(** X6.  [delete_product]: when no product has the id, the answer is 404
    "Product not found" and nothing changes.  When one has (ids being
    unique), the answer is "Product deleted successfully"; afterwards reading
    the id and deleting it again are both answered 404, reads of every other
    id answer as before, and users, cart items and orders are untouched, so
    cart items that refer to the product stay stored. *)
Theorem delete_product_removes :
  (forall pid db,
     (forall p, In p (products db) -> ProductDoc.id p <> pid) ->
     delete_product pid db = (HTTPException 404 "Product not found", db)) /\
  (forall pid db,
     unique_product_ids (products db) ->
     (exists p, In p (products db) /\ ProductDoc.id p = pid) ->
     fst (delete_product pid db) = Ok "Product deleted successfully" /\
     get_product pid (snd (delete_product pid db)) =
       HTTPException 404 "Product not found" /\
     delete_product pid (snd (delete_product pid db)) =
       (HTTPException 404 "Product not found", snd (delete_product pid db)) /\
     (forall pid', pid' <> pid ->
        get_product pid' (snd (delete_product pid db)) = get_product pid' db) /\
     users (snd (delete_product pid db)) = users db /\
     cart_items (snd (delete_product pid db)) = cart_items db /\
     orders (snd (delete_product pid db)) = orders db).
Proof.
  split.
  - intros pid db Hnone. unfold delete_product.
    pose proof (product_not_found _ _ Hnone) as Hf.
    apply find_one_none in Hf.
    now rewrite (delete_one_nomatch _ _ Hf).
  - intros pid db Hids Hex.
    destruct (product_found _ _ Hex) as [d Hd].
    destruct (find_one_split _ _ _ Hd) as (l1 & l2 & Hc & Hq & Hl1).
    pose proof Hq as Hid. apply product_by_id_true in Hid.
    rewrite Hc in Hids. apply unique_product_ids_around in Hids.
    rewrite Hid in Hids.
    unfold delete_product. rewrite Hc, (delete_one_first _ _ _ _ Hl1 Hq).
    cbn [Nat.eqb fst snd users cart_items orders products with_products].
    split; [reflexivity|]. split; [|split; [|split]].
    + unfold get_product. cbn [products with_products].
      now rewrite (proj2 (find_one_none _ _) Hids).
    + rewrite (delete_one_nomatch _ _ Hids). reflexivity.
    + intros pid' Hne. unfold get_product. cbn [products with_products].
      rewrite Hc, !find_one_app.
      destruct (Collection.find_one (product_by_id pid') l1); [reflexivity|].
      unfold Collection.find_one at 2. simpl.
      assert (Hd' : product_by_id pid' d = false).
      { apply not_true_is_false. rewrite product_by_id_true. congruence. }
      now rewrite Hd'.
    + auto.
Qed.

Lemma delete_product_removes_witness :
  delete_product "p-none" Demo.db =
    (HTTPException 404 "Product not found", Demo.db) /\
  fst (delete_product "p-mug" Demo.db) = Ok "Product deleted successfully" /\
  get_product "p-mug" (snd (delete_product "p-mug" Demo.db)) =
    HTTPException 404 "Product not found" /\
  delete_product "p-mug" (snd (delete_product "p-mug" Demo.db)) =
    (HTTPException 404 "Product not found",
     snd (delete_product "p-mug" Demo.db)) /\
  (forall pid', pid' <> "p-mug" ->
     get_product pid' (snd (delete_product "p-mug" Demo.db)) =
     get_product pid' Demo.db) /\
  users (snd (delete_product "p-mug" Demo.db)) = users Demo.db /\
  cart_items (snd (delete_product "p-mug" Demo.db)) = cart_items Demo.db /\
  orders (snd (delete_product "p-mug" Demo.db)) = orders Demo.db.
Proof.
  split.
  - apply (proj1 delete_product_removes).
    simpl. intros p [<-|[<-|[]]]; discriminate.
  - apply (proj2 delete_product_removes).
    + unfold unique_product_ids. simpl.
      repeat constructor; simpl; intuition discriminate.
    + exists (Product_dict Demo.mug). split; [simpl; auto | reflexivity].
Defined.

(** ** update_product: what it keeps, and what a null does *)

Lemma update_one_keeps {A B : Type} (g : A -> B) (q : A -> bool) (f : A -> A)
  (c : list A) :
  (forall x, g (f x) = g x) ->
  map g (snd (Collection.update_one q f c)) = map g c.
Proof.
  intros Hg. induction c as [|x c IH]; simpl; [reflexivity|].
  destruct (q x); simpl; [now rewrite Hg|].
  destruct (Collection.update_one q f c) as [k r]. simpl in *.
  now rewrite IH.
Qed.

Lemma update_product_db (pid : string) (u : ProductUpdate.t) (db : Db) :
  snd (update_product pid u db) = db \/
  snd (update_product pid u db) =
    with_products db
      (snd (Collection.update_one (product_by_id pid) (apply_set u)
              (products db))).
Proof.
  unfold update_product.
  destruct (Collection.find_one (product_by_id pid) (products db));
    [|now left].
  destruct (update_data_nonempty u).
  - right. destruct (Collection.find_one _ _) as [d|]; [|reflexivity].
    now destruct (Product_parse d).
  - left. destruct (Collection.find_one _ _) as [d|]; [|reflexivity].
    now destruct (Product_parse d).
Qed.

(** X7.  Whatever the request, [update_product] neither adds, removes nor
    reorders products and never changes the id or the creation time of one;
    unique product ids stay unique; users, cart items and orders are
    untouched. *)
Theorem update_product_keeps_identity (pid : string) (u : ProductUpdate.t)
  (db : Db) :
  map ProductDoc.id (products (snd (update_product pid u db))) =
    map ProductDoc.id (products db) /\
  map ProductDoc.created_at (products (snd (update_product pid u db))) =
    map ProductDoc.created_at (products db) /\
  (unique_product_ids (products db) ->
   unique_product_ids (products (snd (update_product pid u db)))) /\
  users (snd (update_product pid u db)) = users db /\
  cart_items (snd (update_product pid u db)) = cart_items db /\
  orders (snd (update_product pid u db)) = orders db.
Proof.
  unfold unique_product_ids.
  destruct (update_product_db pid u db) as [-> | ->].
  - repeat split; auto.
  - cbn [products users cart_items orders with_products].
    rewrite !update_one_keeps by reflexivity. repeat split; auto.
Qed.

Lemma update_product_keeps_identity_witness :
  unique_product_ids
    (products
       (snd (update_product "p-mug"
               (ProductUpdate.mk (Some (Some "Cup")) None None None None None)
               Demo.db))).
Proof.
  apply (proj1 (proj2 (proj2 (update_product_keeps_identity "p-mug"
           (ProductUpdate.mk (Some (Some "Cup")) None None None None None)
           Demo.db)))).
  unfold unique_product_ids. simpl.
  repeat constructor; simpl; intuition discriminate.
Defined.

Lemma sets_null_nonempty (u : ProductUpdate.t) :
  sets_null u -> update_data_nonempty u = true.
Proof.
  unfold sets_null, update_data_nonempty.
  intros [H|[H|[H|[H|[H|H]]]]]; rewrite H;
    repeat match goal with
           | |- context [match ?x with _ => _ end] => destruct x
           end; reflexivity.
Qed.






(** ** Startup seeding *)

Lemma count_all {A : Type} (c : list A) :
  Collection.count_documents (fun _ => true) c = List.length c.
Proof.
  unfold Collection.count_documents.
  induction c as [|x c IH]; simpl; [reflexivity|]. now rewrite IH.
Qed.

(** X9.  [create_sample_data] writes only into an empty product collection:
    a database with a product is left unchanged, so seeding a second time
    changes nothing; an empty collection receives the eight sample products,
    each well formed; users, cart items and orders are never touched. *)
Theorem create_sample_data_only_when_empty (env env' : Env) (db : Db) :
  (products db <> [] -> create_sample_data env db = db) /\
  create_sample_data env' (create_sample_data env db) =
    create_sample_data env db /\
  (products db = [] ->
   products (create_sample_data env db) = sample_products env /\
   List.length (products (create_sample_data env db)) = 8%nat /\
   Forall well_formed (products (create_sample_data env db))) /\
  users (create_sample_data env db) = users db /\
  cart_items (create_sample_data env db) = cart_items db /\
  orders (create_sample_data env db) = orders db.
Proof.
  assert (Hne : forall e d, products d <> [] -> create_sample_data e d = d).
  { intros e d H. unfold create_sample_data. rewrite count_all.
    destruct (products d); [contradiction|reflexivity]. }
  split; [apply Hne|]. split; [|split].
  - unfold create_sample_data at 2 3. rewrite count_all.
    destruct (products db) as [|d ps] eqn:Hp.
    + cbn [Nat.eqb List.length]. apply Hne. cbn [products with_products].
      unfold Collection.insert_many. discriminate.
    + cbn [Nat.eqb List.length]. apply Hne. rewrite Hp. discriminate.
  - intros Hempty. unfold create_sample_data. rewrite count_all, Hempty.
    cbn [Nat.eqb List.length products with_products].
    unfold Collection.insert_many. cbn [app].
    split; [reflexivity|]. split; [reflexivity|].
    unfold sample_products, sample_products_data. simpl.
    repeat constructor; eexists; reflexivity.
  - unfold create_sample_data. destruct (Nat.eqb _ 0); auto.
Qed.

Lemma create_sample_data_only_when_empty_witness :
  create_sample_data Demo.env Demo.db = Demo.db /\
  List.length (products (create_sample_data Demo.env Demo.empty_db)) = 8%nat.
Proof.
  split.
  - apply (proj1 (create_sample_data_only_when_empty Demo.env Demo.env Demo.db)).
    discriminate.
  - apply (proj1 (proj2 (proj2 (create_sample_data_only_when_empty Demo.env
                                  Demo.env Demo.empty_db)))).
    reflexivity.
Defined.

(** ** get_categories *)

Lemma category_eqb_eq (a b : option string) :
  category_eqb a b = true <-> a = b.
Proof.
  destruct a as [x|], b as [y|]; simpl; try (split; [discriminate|congruence]).
  - rewrite String.eqb_eq. split; congruence.
  - split; reflexivity.
Qed.

Lemma category_eqb_neq (a b : option string) :
  category_eqb a b = false <-> a <> b.
Proof.
  rewrite <- category_eqb_eq. destruct (category_eqb a b); split;
    congruence.
Qed.

Lemma bump_categories (k : option string) (gs : list CategoryCount.t) :
  map CategoryCount.category (bump k gs) =
  if existsb (fun g => category_eqb (CategoryCount.category g) k) gs
  then map CategoryCount.category gs
  else map CategoryCount.category gs ++ [k].
Proof.
  induction gs as [|g gs IH]; simpl; [reflexivity|].
  destruct (category_eqb (CategoryCount.category g) k) eqn:Hg; simpl.
  - apply category_eqb_eq in Hg. now rewrite Hg.
  - rewrite IH. now destruct (existsb _ gs).
Qed.

Lemma existsb_category (k : option string) (gs : list CategoryCount.t) :
  existsb (fun g => category_eqb (CategoryCount.category g) k) gs = true <->
  In k (map CategoryCount.category gs).
Proof.
  rewrite existsb_exists, in_map_iff. split.
  - intros (g & Hin & Hg). apply category_eqb_eq in Hg. eauto.
  - intros (g & Hg & Hin). exists g. split; [assumption|].
    now apply category_eqb_eq.
Qed.

Lemma bump_total (k : option string) (gs : list CategoryCount.t) :
  total_count (bump k gs) = total_count gs + 1.
Proof.
  unfold total_count.
  induction gs as [|g gs IH]; simpl; [reflexivity|].
  destruct (category_eqb (CategoryCount.category g) k); simpl; lia.
Qed.

Lemma bump_length (k : option string) (gs : list CategoryCount.t) :
  (List.length (bump k gs) <= S (List.length gs))%nat.
Proof.
  induction gs as [|g gs IH]; simpl; [lia|].
  destruct (category_eqb (CategoryCount.category g) k); simpl; lia.
Qed.

(** With distinct categories in [gs], a group of [bump k gs] is a group of
    [gs] of another category, or the group of [k]: one more than the group
    [gs] had for [k], or 1 when it had none. *)
Lemma bump_in (k : option string) (gs : list CategoryCount.t)
  (g' : CategoryCount.t) :
  NoDup (map CategoryCount.category gs) ->
  In g' (bump k gs) ->
  (CategoryCount.category g' <> k /\ In g' gs) \/
  (CategoryCount.category g' = k /\
   ((exists g, In g gs /\ CategoryCount.category g = k /\
               CategoryCount.count g' = CategoryCount.count g + 1) \/
    (~ In k (map CategoryCount.category gs) /\ CategoryCount.count g' = 1))).
Proof.
  induction gs as [|g gs IH]; simpl; intros Hnd.
  - intros [<-|[]]. right. split; [reflexivity|]. right. auto.
  - inversion Hnd as [|c cs Hc Hnd']. subst.
    destruct (category_eqb (CategoryCount.category g) k) eqn:Hg.
    + apply category_eqb_eq in Hg. intros [<-|Hin].
      * right. split; [reflexivity|]. left. exists g. auto.
      * left. split; [|now right]. intros Heq. apply Hc.
        rewrite Hg, <- Heq. now apply in_map.
    + apply category_eqb_neq in Hg. intros [<-|Hin].
      * left. split; [assumption|now left].
      * destruct (IH Hnd' Hin) as [[Hne Hin']|[Heq [(g0 & H0 & H1 & H2)|[H0 H1]]]].
        -- left. split; [assumption|now right].
        -- right. split; [assumption|]. left. exists g0.
           split; [now right|]. auto.
        -- right. split; [assumption|]. right. split; [|assumption].
           intros [H|H]; [now apply Hg|now apply H0].
Qed.

Lemma in_category_app (k : option string) (ps : list ProductDoc.t)
  (d : ProductDoc.t) :
  List.length (products_in_category k (ps ++ [d])) =
  if category_eqb (ProductDoc.category d) k
  then S (List.length (products_in_category k ps))
  else List.length (products_in_category k ps).
Proof.
  unfold products_in_category. rewrite filter_app, length_app. simpl.
  destruct (category_eqb (ProductDoc.category d) k); simpl; lia.
Qed.

Lemma bump_counts (gs : list CategoryCount.t) (ps : list ProductDoc.t)
  (d : ProductDoc.t) :
  counts_products gs ps ->
  counts_products (bump (ProductDoc.category d) gs) (ps ++ [d]).
Proof.
  intros (Hnd & Hcount & Hall & Htotal & Hlen).
  set (k := ProductDoc.category d).
  assert (Hkeys := bump_categories k gs).
  assert (Hgroup : forall g, In g (bump k gs) ->
            CategoryCount.count g =
              Z.of_nat (List.length
                          (products_in_category (CategoryCount.category g)
                             (ps ++ [d]))) /\
            1 <= CategoryCount.count g).
  { intros g Hg. rewrite in_category_app. fold k.
    destruct (bump_in k gs g Hnd Hg)
      as [[Hne Hin]|[Heq [(g0 & H0 & H1 & H2)|[H0 H1]]]].
    - apply not_eq_sym, category_eqb_neq in Hne. rewrite Hne.
      now apply Hcount.
    - rewrite Heq, (proj2 (category_eqb_eq k k) eq_refl), H2.
      destruct (Hcount g0 H0) as [Hc Hpos]. rewrite Hc, H1. lia.
    - rewrite Heq, (proj2 (category_eqb_eq k k) eq_refl), H1.
      assert (Hzero : products_in_category k ps = []).
      { unfold products_in_category. apply filter_nomatch, Forall_forall.
        intros x Hx. apply category_eqb_neq. intros Hx'. apply H0.
        rewrite <- Hx'. now apply Hall. }
      rewrite Hzero. simpl. lia. }
  destruct (existsb (fun g => category_eqb (CategoryCount.category g) k) gs)
    eqn:Hex.
  - apply existsb_category in Hex.
    split; [now rewrite Hkeys|]. split; [exact Hgroup|]. split; [|split].
    + intros x Hx. rewrite Hkeys. apply in_app_or in Hx as [Hx|[<-|[]]];
        [now apply Hall|assumption].
    + rewrite bump_total, Htotal, length_app. simpl. lia.
    + pose proof (f_equal (@List.length _) Hkeys) as Hl.
      rewrite !length_map in Hl. rewrite Hl, length_app. simpl. lia.
  - assert (Hnot : ~ In k (map CategoryCount.category gs)).
    { intros Hin. apply existsb_category in Hin. congruence. }
    split; [rewrite Hkeys; now apply nodup_snoc|].
    split; [exact Hgroup|]. split; [|split].
    + intros x Hx. rewrite Hkeys. apply in_or_app.
      apply in_app_or in Hx as [Hx|[<-|[]]]; [left; now apply Hall|].
      right. now left.
    + rewrite bump_total, Htotal, length_app. simpl. lia.
    + pose proof (f_equal (@List.length _) Hkeys) as Hl.
      rewrite length_app, !length_map in Hl. simpl in Hl.
      rewrite Hl, length_app. simpl. lia.
Qed.

Lemma group_by_category_counts (ps : list ProductDoc.t) :
  counts_products (group_by_category ps) ps.
Proof.
  unfold group_by_category.
  assert (H : forall rest gs pre,
            counts_products gs pre ->
            counts_products
              (fold_left (fun groups d => bump (ProductDoc.category d) groups)
                 rest gs)
              (pre ++ rest)).
  { induction rest as [|d rest IH]; intros gs pre Hinv; simpl.
    - now rewrite app_nil_r.
    - replace (pre ++ d :: rest) with ((pre ++ [d]) ++ rest)
        by (now rewrite <- app_assoc).
      apply IH. now apply bump_counts. }
  apply (H ps [] []).
  split; [constructor|]. split; [intros g []|]. split; [intros d []|].
  split; [reflexivity|]. simpl. lia.
Qed.

Lemma nodup_firstn {A : Type} (n : nat) (l : list A) :
  NoDup l -> NoDup (firstn n l).
Proof.
  intros H. revert n. induction H as [|x l Hx Hl IH]; intros [|n]; simpl;
    try constructor.
  - intros Hin. apply Hx. now apply firstn_sublist in Hin.
  - apply IH.
Qed.

(** X10.  [get_categories] answers at most 1000 groups; their categories are
    pairwise distinct, and the count of each is the number of stored products
    of that category, at least one.  With at most 1000 products stored, every
    category of a stored product has its group and the counts add up to the
    number of products. *)
Theorem get_categories_counts (db : Db) :
  NoDup (map CategoryCount.category (get_categories db)) /\
  (forall g, In g (get_categories db) ->
     CategoryCount.count g =
       Z.of_nat (List.length
                   (products_in_category (CategoryCount.category g)
                      (products db))) /\
     1 <= CategoryCount.count g) /\
  (List.length (get_categories db) <= 1000)%nat /\
  ((List.length (products db) <= 1000)%nat ->
   (forall d, In d (products db) ->
      In (ProductDoc.category d)
         (map CategoryCount.category (get_categories db))) /\
   total_count (get_categories db) = Z.of_nat (List.length (products db))).
Proof.
  destruct (group_by_category_counts (products db))
    as (Hnd & Hcount & Hall & Htotal & Hlen).
  unfold get_categories, Collection.to_list.
  split; [|split; [|split]].
  - rewrite <- firstn_map. now apply nodup_firstn.
  - intros g Hg. apply firstn_sublist in Hg. now apply Hcount.
  - apply firstn_le_length.
  - intros Hsize. rewrite firstn_all2 by lia. split; assumption.
Qed.

Lemma get_categories_counts_witness :
  (forall d, In d (products Demo.db) ->
     In (ProductDoc.category d)
        (map CategoryCount.category (get_categories Demo.db))) /\
  total_count (get_categories Demo.db) =
    Z.of_nat (List.length (products Demo.db)).
Proof.
  apply (proj2 (proj2 (proj2 (get_categories_counts Demo.db)))).
  simpl. lia.
Defined.

(** ** Invariants of the cart *)

Lemma delete_one_keeps_nodup {A B : Type} (g : A -> B) (q : A -> bool)
  (c : list A) :
  NoDup (map g c) -> NoDup (map g (snd (Collection.delete_one q c))).
Proof.
  induction c as [|x c IH]; simpl; [auto|].
  intros H. inversion H as [|y ys Hy Hys]. subst.
  destruct (q x); simpl; [assumption|].
  destruct (Collection.delete_one q c) as [k r] eqn:Hd. simpl in *.
  constructor; [|now apply IH].
  intros Hin. apply Hy. apply in_map_iff in Hin as (z & Hz & Hin).
  rewrite <- Hz. apply in_map.
  assert (Hsub : forall c0 k0 r0 z0,
            Collection.delete_one q c0 = (k0, r0) -> In z0 r0 -> In z0 c0).
  { clear. induction c0 as [|a c0 IH0]; simpl; intros k0 r0 z0.
    - now intros [= _ <-].
    - destruct (q a).
      + intros [= _ <-] Hz. now right.
      + destruct (Collection.delete_one q c0) as [k1 r1].
        intros [= _ <-] [<-|Hz]; [now left|].
        right. now apply (IH0 k1 r1). }
  now apply (Hsub c k r).
Qed.

Lemma filter_keeps_nodup {A B : Type} (g : A -> B) (p : A -> bool)
  (c : list A) :
  NoDup (map g c) -> NoDup (map g (filter p c)).
Proof.
  induction c as [|x c IH]; simpl; [auto|].
  intros H. inversion H as [|y ys Hy Hys]. subst.
  destruct (p x); simpl; [|now apply IH].
  constructor; [|now apply IH].
  intros Hin. apply Hy. apply in_map_iff in Hin as (z & Hz & Hin).
  apply filter_In in Hin as [Hin _]. rewrite <- Hz. now apply in_map.
Qed.

Lemma add_to_cart_cart (env : Env) (ci : CartItemCreate.t) (u : User.t)
  (db : Db) :
  cart_items (snd (add_to_cart env ci u db)) = cart_items db \/
  (exists e n,
     Collection.find_one
       (cart_by_user_product (User.id u) (CartItemCreate.product_id ci))
       (cart_items db) = Some e /\
     cart_items (snd (add_to_cart env ci u db)) =
       snd (Collection.update_one (cart_by_id (CartItem.id e))
              (set_quantity n) (cart_items db))) \/
  (Collection.find_one
     (cart_by_user_product (User.id u) (CartItemCreate.product_id ci))
     (cart_items db) = None /\
   cart_items (snd (add_to_cart env ci u db)) =
     cart_items db ++
     [CartItem.mk (uuid4 env 0) (User.id u) (CartItemCreate.product_id ci)
        (CartItemCreate.quantity ci) (utcnow env 0)]).
Proof.
  unfold add_to_cart.
  destruct (Collection.find_one _ (products db)); [|now left].
  destruct (Collection.find_one _ (cart_items db)) as [e|] eqn:He.
  - right. left. exists e. eexists. split; reflexivity.
  - right. right. split; reflexivity.
Qed.

(** X11.  The cart handlers keep at most one cart item for a user and a
    product: when the cart has that property before [add_to_cart],
    [update_cart_item], [remove_from_cart] or [create_order], it has it
    after. *)
Theorem cart_keeps_one_item_per_pair (env : Env) (ci : CartItemCreate.t)
  (item_id : string) (quantity : Z) (order : OrderCreate.t) (u : User.t)
  (db : Db) :
  one_item_per_pair (cart_items db) ->
  one_item_per_pair (cart_items (snd (add_to_cart env ci u db))) /\
  one_item_per_pair (cart_items (snd (update_cart_item item_id quantity u db))) /\
  one_item_per_pair (cart_items (snd (remove_from_cart item_id u db))) /\
  one_item_per_pair (cart_items (snd (create_order env order u db))).
Proof.
  unfold one_item_per_pair. intros H. split; [|split; [|split]].
  - destruct (add_to_cart_cart env ci u db)
      as [-> | [(e & n & _ & ->) | [Hnone ->]]].
    + assumption.
    + now rewrite update_one_keeps by reflexivity.
    + rewrite map_app. simpl. apply nodup_snoc; [|assumption].
      intros Hin. apply in_map_iff in Hin as (i & Hi & Hin).
      apply find_one_none in Hnone. rewrite Forall_forall in Hnone.
      specialize (Hnone i Hin). apply not_true_iff_false in Hnone.
      apply Hnone, cart_by_user_product_true.
      now injection Hi as -> ->.
  - unfold update_cart_item.
    pose proof (update_one_keeps
                  (fun i => (CartItem.user_id i, CartItem.product_id i))
                  (cart_by_id_user item_id (User.id u))
                  (set_quantity quantity) (cart_items db)
                  (fun _ => eq_refl)) as Hk.
    destruct (Collection.update_one _ _ (cart_items db)) as [k cs].
    simpl in Hk. destruct (Nat.eqb k 0); simpl; now rewrite Hk.
  - unfold remove_from_cart.
    pose proof (delete_one_keeps_nodup
                  (fun i => (CartItem.user_id i, CartItem.product_id i))
                  (cart_by_id_user item_id (User.id u)) (cart_items db) H)
      as Hk.
    destruct (Collection.delete_one _ (cart_items db)) as [k cs].
    simpl in Hk. destruct (Nat.eqb k 0); simpl; assumption.
  - unfold create_order, Collection.delete_many.
    cbn [snd cart_items with_cart_items with_orders].
    now apply filter_keeps_nodup.
Qed.

Lemma cart_keeps_one_item_per_pair_witness :
  one_item_per_pair
    (cart_items
       (snd (add_to_cart Demo.env (CartItemCreate.mk "p-mug" 2) Demo.bob
               Demo.db))) /\
  one_item_per_pair
    (cart_items (snd (update_cart_item "c-1" 0 Demo.bob Demo.db))) /\
  one_item_per_pair
    (cart_items (snd (remove_from_cart "c-1" Demo.bob Demo.db))) /\
  one_item_per_pair
    (cart_items (snd (create_order Demo.env Demo2.order Demo.bob Demo.db))).
Proof.
  apply cart_keeps_one_item_per_pair.
  unfold one_item_per_pair. simpl.
  repeat constructor; simpl; intuition discriminate.
Defined.

(** X12.  The cart handlers keep the ids of the cart items pairwise
    distinct, [add_to_cart] provided the id it draws is not in use; and
    [update_cart_item] changes nothing of the cart but quantities: the items,
    their order, ids, owners, products and creation times stay, whatever the
    quantity given (zero and negative values included). *)
Theorem cart_keeps_unique_ids (env : Env) (ci : CartItemCreate.t)
  (item_id : string) (quantity : Z) (order : OrderCreate.t) (u : User.t)
  (db : Db) :
  unique_cart_ids (cart_items db) ->
  (~ In (uuid4 env 0) (map CartItem.id (cart_items db)) ->
   unique_cart_ids (cart_items (snd (add_to_cart env ci u db)))) /\
  unique_cart_ids (cart_items (snd (update_cart_item item_id quantity u db))) /\
  map item_key (cart_items (snd (update_cart_item item_id quantity u db))) =
    map item_key (cart_items db) /\
  unique_cart_ids (cart_items (snd (remove_from_cart item_id u db))) /\
  unique_cart_ids (cart_items (snd (create_order env order u db))).
Proof.
  unfold unique_cart_ids. intros H.
  split; [|split; [|split; [|split]]].
  - intros Hfresh. now apply add_to_cart_keeps_unique_ids.
  - unfold update_cart_item.
    pose proof (update_one_keeps CartItem.id
                  (cart_by_id_user item_id (User.id u))
                  (set_quantity quantity) (cart_items db)
                  (fun _ => eq_refl)) as Hk.
    destruct (Collection.update_one _ _ (cart_items db)) as [k cs].
    simpl in Hk. destruct (Nat.eqb k 0); simpl; now rewrite Hk.
  - unfold update_cart_item.
    pose proof (update_one_keeps item_key
                  (cart_by_id_user item_id (User.id u))
                  (set_quantity quantity) (cart_items db)
                  (fun _ => eq_refl)) as Hk.
    destruct (Collection.update_one _ _ (cart_items db)) as [k cs].
    simpl in Hk. destruct (Nat.eqb k 0); simpl; assumption.
  - unfold remove_from_cart.
    pose proof (delete_one_keeps_nodup CartItem.id
                  (cart_by_id_user item_id (User.id u)) (cart_items db) H)
      as Hk.
    destruct (Collection.delete_one _ (cart_items db)) as [k cs].
    simpl in Hk. destruct (Nat.eqb k 0); simpl; assumption.
  - unfold create_order, Collection.delete_many.
    cbn [snd cart_items with_cart_items with_orders].
    now apply filter_keeps_nodup.
Qed.

Lemma cart_keeps_unique_ids_witness :
  (~ In (uuid4 Demo.env 0) (map CartItem.id (cart_items Demo.db)) ->
   unique_cart_ids
     (cart_items
        (snd (add_to_cart Demo.env (CartItemCreate.mk "p-lamp" 2) Demo.bob
                Demo.db)))) /\
  unique_cart_ids
    (cart_items (snd (update_cart_item "c-1" (-3) Demo.bob Demo.db))) /\
  map item_key (cart_items (snd (update_cart_item "c-1" (-3) Demo.bob Demo.db)))
    = map item_key (cart_items Demo.db) /\
  unique_cart_ids (cart_items (snd (remove_from_cart "c-1" Demo.bob Demo.db))) /\
  unique_cart_ids
    (cart_items (snd (create_order Demo.env Demo2.order Demo.bob Demo.db))).
Proof.
  apply cart_keeps_unique_ids.
  unfold unique_cart_ids. simpl.
  repeat constructor; simpl; intuition discriminate.
Defined.

(** ** One user's requests and the other users' carts *)

Lemma others_app (uid : string) (l1 l2 : list CartItem.t) :
  items_of_others uid (l1 ++ l2) =
  items_of_others uid l1 ++ items_of_others uid l2.
Proof. unfold items_of_others. apply filter_app. Qed.

Lemma others_drop_own (uid : string) (i : CartItem.t) (l : list CartItem.t) :
  CartItem.user_id i = uid ->
  items_of_others uid (i :: l) = items_of_others uid l.
Proof.
  intros H. unfold items_of_others. simpl. unfold cart_by_user.
  now rewrite H, String.eqb_refl.
Qed.

(** X13.  A cart request of user [u] never changes a cart item of another
    user: the items that do not belong to [u] are the same, in the same
    order and with the same quantities, after [add_to_cart] (ids being
    unique), [update_cart_item], [remove_from_cart] and [create_order] as
    before. *)
Theorem cart_of_others_untouched (env : Env) (ci : CartItemCreate.t)
  (item_id : string) (quantity : Z) (order : OrderCreate.t) (u : User.t)
  (db : Db) :
  unique_cart_ids (cart_items db) ->
  items_of_others (User.id u) (cart_items (snd (add_to_cart env ci u db))) =
    items_of_others (User.id u) (cart_items db) /\
  items_of_others (User.id u)
    (cart_items (snd (update_cart_item item_id quantity u db))) =
    items_of_others (User.id u) (cart_items db) /\
  items_of_others (User.id u) (cart_items (snd (remove_from_cart item_id u db)))
    = items_of_others (User.id u) (cart_items db) /\
  cart_items (snd (create_order env order u db)) =
    items_of_others (User.id u) (cart_items db).
Proof.
  intros Hids. split; [|split; [|split]].
  - destruct (add_to_cart_cart env ci u db)
      as [-> | [(e & n & He & ->) | [Hnone ->]]].
    + reflexivity.
    + destruct (find_one_split _ _ _ He) as (l1 & l2 & Hc & Hq & _).
      apply cart_by_user_product_true in Hq as [Hu _].
      rewrite Hc in Hids |- *.
      rewrite update_one_first;
        [|now apply unique_ids_before with (l2 := l2)
         |now apply cart_by_id_true].
      cbn [snd]. rewrite !others_app, !others_drop_own; auto.
    + rewrite others_app, others_drop_own by reflexivity.
      unfold items_of_others at 2. simpl. now rewrite app_nil_r.
  - unfold update_cart_item.
    destruct (Collection.find_one (cart_by_id_user item_id (User.id u))
                (cart_items db)) as [e|] eqn:He.
    + destruct (find_one_split _ _ _ He) as (l1 & l2 & Hc & Hq & Hl1).
      rewrite Hc, (update_one_first _ _ _ _ _ Hl1 Hq).
      apply cart_by_id_user_true in Hq as [_ Hu].
      cbn [Nat.eqb snd cart_items with_cart_items].
      rewrite !others_app, !others_drop_own; auto.
    + apply find_one_none in He. rewrite (update_one_nomatch _ _ _ He).
      reflexivity.
  - unfold remove_from_cart.
    destruct (Collection.find_one (cart_by_id_user item_id (User.id u))
                (cart_items db)) as [e|] eqn:He.
    + destruct (find_one_split _ _ _ He) as (l1 & l2 & Hc & Hq & Hl1).
      rewrite Hc, (delete_one_first _ _ _ _ Hl1 Hq).
      apply cart_by_id_user_true in Hq as [_ Hu].
      cbn [Nat.eqb snd cart_items with_cart_items].
      rewrite !others_app, others_drop_own; auto.
    + apply find_one_none in He. rewrite (delete_one_nomatch _ _ He).
      reflexivity.
  - reflexivity.
Qed.

Lemma cart_of_others_untouched_witness :
  items_of_others "u-alice"
    (cart_items
       (snd (add_to_cart Demo.env (CartItemCreate.mk "p-lamp" 2) Demo.alice
               Demo.db))) =
    items_of_others "u-alice" (cart_items Demo.db) /\
  items_of_others "u-alice"
    (cart_items (snd (update_cart_item "c-1" 9 Demo.alice Demo.db))) =
    items_of_others "u-alice" (cart_items Demo.db) /\
  items_of_others "u-alice"
    (cart_items (snd (remove_from_cart "c-1" Demo.alice Demo.db))) =
    items_of_others "u-alice" (cart_items Demo.db) /\
  cart_items (snd (create_order Demo.env Demo2.order Demo.alice Demo.db)) =
    items_of_others "u-alice" (cart_items Demo.db).
Proof.
  apply (cart_of_others_untouched Demo.env (CartItemCreate.mk "p-lamp" 2)
           "c-1" 9 Demo2.order Demo.alice Demo.db).
  unfold unique_cart_ids. simpl.
  repeat constructor; simpl; intuition discriminate.
Defined.

(** ** Orders *)

Lemma order_by_user_true (uid : string) (o : Order.t) :
  order_by_user uid o = true <-> Order.user_id o = uid.
Proof. unfold order_by_user. apply String.eqb_eq. Qed.

(** X14.  [get_user_orders] answers only orders stored under the caller's
    id, at most 1000 of them, in store order; when the caller has at most
    1000 orders the answer holds exactly the caller's orders. *)
Theorem get_user_orders_own_only (u : User.t) (db : Db) :
  exists l,
    get_user_orders u db = Ok l /\
    (List.length l <= 1000)%nat /\
    (forall o, In o l -> In o (orders db) /\ Order.user_id o = User.id u) /\
    ((List.length (filter (order_by_user (User.id u)) (orders db)) <= 1000)%nat ->
     forall o, In o l <-> In o (orders db) /\ Order.user_id o = User.id u).
Proof.
  eexists. split; [reflexivity|].
  unfold Collection.to_list, Collection.find. split; [|split].
  - apply firstn_le_length.
  - intros o Ho. apply firstn_sublist, filter_In in Ho as [Hin Hq].
    split; [assumption|]. now apply order_by_user_true.
  - intros Hlen o. rewrite firstn_all2 by assumption.
    rewrite filter_In, order_by_user_true. reflexivity.
Qed.

Lemma get_user_orders_own_only_witness :
  exists l,
    get_user_orders Demo.alice
      (snd (create_order Demo.env Demo2.order Demo.bob Demo.db)) = Ok l /\
    (List.length l <= 1000)%nat /\
    (forall o, In o l ->
       In o (orders (snd (create_order Demo.env Demo2.order Demo.bob Demo.db)))
       /\ Order.user_id o = User.id Demo.alice) /\
    ((List.length
        (filter (order_by_user (User.id Demo.alice))
           (orders (snd (create_order Demo.env Demo2.order Demo.bob Demo.db))))
      <= 1000)%nat ->
     forall o, In o l <->
       In o (orders (snd (create_order Demo.env Demo2.order Demo.bob Demo.db)))
       /\ Order.user_id o = User.id Demo.alice).
Proof.
  apply get_user_orders_own_only.
Defined.



(** ** The cart listing after a write *)


Lemma get_cart_ok (u : User.t) (db : Db) (l : list CartEntry.t) :
  get_cart u db = Ok l <->
  get_cart_loop (products db)
    (firstn 1000 (filter (cart_by_user (User.id u)) (cart_items db))) = Some l.
Proof.
  unfold get_cart, Collection.to_list, Collection.find.
  destruct (get_cart_loop _ _); split; congruence.
Qed.




Lemma find_after_delete (pid pid' : string) (ps : list ProductDoc.t) :
  unique_product_ids ps ->
  Collection.find_one (product_by_id pid')
    (snd (Collection.delete_one (product_by_id pid) ps)) =
  if String.eqb pid' pid then None
  else Collection.find_one (product_by_id pid') ps.
Proof.
  intros Hids.
  destruct (Collection.find_one (product_by_id pid) ps) as [d|] eqn:Hd.
  - destruct (find_one_split _ _ _ Hd) as (l1 & l2 & -> & Hq & Hl1).
    pose proof Hq as Hid. apply product_by_id_true in Hid.
    apply unique_product_ids_around in Hids. rewrite Hid in Hids.
    rewrite (delete_one_first _ _ _ _ Hl1 Hq). cbn [snd].
    destruct (String.eqb_spec pid' pid) as [->|Hne].
    + now apply find_one_none.
    + rewrite !find_one_app.
      destruct (Collection.find_one (product_by_id pid') l1); [reflexivity|].
      unfold Collection.find_one at 2. simpl.
      assert (Hd' : product_by_id pid' d = false).
      { apply not_true_is_false. rewrite product_by_id_true. congruence. }
      now rewrite Hd'.
  - pose proof Hd as Hnone. apply find_one_none in Hnone.
    rewrite (delete_one_nomatch _ _ Hnone). cbn [snd].
    destruct (String.eqb_spec pid' pid) as [->|Hne]; [assumption|reflexivity].
Qed.

Lemma delete_product_db (pid : string) (db : Db) :
  snd (delete_product pid db) =
  with_products db
    (snd (Collection.delete_one (product_by_id pid) (products db))).
Proof.
  unfold delete_product.
  destruct (Collection.find_one (product_by_id pid) (products db))
    as [d|] eqn:Hd.
  - destruct (find_one_split _ _ _ Hd) as (l1 & l2 & Hc & Hq & Hl1).
    rewrite Hc, (delete_one_first _ _ _ _ Hl1 Hq). reflexivity.
  - apply find_one_none in Hd. rewrite (delete_one_nomatch _ _ Hd).
    simpl. now rewrite with_products_same.
Qed.

Lemma parse_keeps_id (d : ProductDoc.t) (p : Product.t) :
  Product_parse d = Some p -> Product.id p = ProductDoc.id d.
Proof. intros H. apply parse_some_dict in H. now subst. Qed.

Lemma get_cart_loop_without (pid : string) (ps ps' : list ProductDoc.t)
  (items : list CartItem.t) (old : list CartEntry.t) :
  (forall pid',
     Collection.find_one (product_by_id pid') ps' =
     if String.eqb pid' pid then None
     else Collection.find_one (product_by_id pid') ps) ->
  get_cart_loop ps items = Some old ->
  get_cart_loop ps' items =
    Some (filter
            (fun e => negb (String.eqb (Product.id (CartEntry.product e)) pid))
            old).
Proof.
  intros Hfind. revert old. induction items as [|i items IH]; simpl.
  - now intros old [= <-].
  - intros old. rewrite Hfind.
    destruct (Collection.find_one (product_by_id (CartItem.product_id i)) ps)
      as [d|] eqn:Hd.
    + destruct (Product_parse d) as [p|] eqn:Hp; [|discriminate].
      destruct (get_cart_loop ps items) as [rest|]; [|discriminate].
      simpl. intros [= <-]. simpl.
      destruct (find_one_in _ _ _ Hd) as [_ Hq].
      apply product_by_id_true in Hq.
      rewrite (parse_keeps_id d p Hp), Hq.
      destruct (String.eqb (CartItem.product_id i) pid); simpl.
      * now apply IH.
      * rewrite Hp, (IH rest eq_refl). reflexivity.
    + intros Hold. destruct (String.eqb (CartItem.product_id i) pid);
        now apply IH.
Qed.

(** X17.  Deleting a product removes its entries from the cart listings and
    nothing else (product ids being unique): the listing of a user after
    [delete_product] is the listing before without the entries of that
    product; the cart items themselves stay stored. *)
Theorem delete_product_then_get_cart (pid : string) (u : User.t) (db : Db)
  (old : list CartEntry.t) :
  unique_product_ids (products db) ->
  get_cart u db = Ok old ->
  cart_items (snd (delete_product pid db)) = cart_items db /\
  get_cart u (snd (delete_product pid db)) =
    Ok (filter
          (fun e => negb (String.eqb (Product.id (CartEntry.product e)) pid))
          old).
Proof.
  intros Hids Hold. rewrite delete_product_db.
  split; [reflexivity|].
  apply get_cart_ok in Hold. apply get_cart_ok.
  cbn [products cart_items with_products].
  apply get_cart_loop_without with (ps := products db); [|assumption].
  intros pid'. now apply find_after_delete.
Qed.

Lemma delete_product_then_get_cart_witness :
  cart_items (snd (delete_product "p-lamp" Demo.db)) = cart_items Demo.db /\
  get_cart Demo.alice (snd (delete_product "p-lamp" Demo.db)) =
    Ok (filter
          (fun e => negb (String.eqb (Product.id (CartEntry.product e)) "p-lamp"))
          [cart_entry Demo.alices_item Demo.lamp]).
Proof.
  apply delete_product_then_get_cart.
  - unfold unique_product_ids. simpl.
    repeat constructor; simpl; intuition discriminate.
  - reflexivity.
Defined.




(** ** What a product listing can hold *)



